(** * SuperSpreader: the Gamma polling feed and the shadow broker

    A shallow embedding of

    - [connectors/polymarket/gamma_poll_stream.py]
      ([PolymarketGammaPollStream.events]),
    - [execution/base.py] ([OrderRequest], [Broker]),
    - [execution/shadow.py] ([ShadowBroker]),
    - [tmp_ws_smoke.py] (the loop of [main] over a feed),

    and the properties of these that the design document states.

    Conventions.
    - A Python [float] is a binary64 number: Rocq's primitive [float].  Where
      the code compares tuples, which look at what object an item is before
      they look at its value, a float is a [FloatObj.t].
    - A Python [str] is a [string] whose characters are code points below 256.
    - A decoded JSON document is a [pyval]; a JSON object is a finite map from
      field names to values.
    - Calls into the store ([SqliteStore]) and the logger are recorded, in
      program order, in a trace of [Effect]s next to the values the generator
      yields.  Both collaborators live outside these sources; their calls are
      taken to return normally.
    - The wall clock, the HTTP exchange, the market-id provider and the UUID
      generator are inputs of the step they are read in; the sleep between
      two polls takes no part. *)

Set Warnings "-inexact-float,-register-all".

From Stdlib Require Import ZArith Floats Ascii String.
From stdpp Require Import gmap strings list pretty.

Open Scope string_scope.
Open Scope list_scope.

(** ** Python values *)

(** What [json.loads] returns, which is also all that [events] ever inspects. *)
Inductive pyval :=
| PNone
| PBool (b : bool)
| PInt (z : Z)
| PFloat (f : float)
| PStr (s : string)
| PList (l : list pyval)
| PDict (d : gmap string pyval).

(** A raised instance of [Exception]: [type(e).__name__] and [str(e)]. *)
Record Exn := { exn_type : string; exn_msg : string }.

(** [bool(v)], as used by [or], [not] and [if]. *)
Definition truthy (v : pyval) : bool :=
  match v with
  | PNone => false
  | PBool b => b
  | PInt z => negb (z =? 0)%Z
  | PFloat f => negb (f =? 0)%float
  | PStr s => match s with EmptyString => false | String _ _ => true end
  | PList l => match l with [] => false | _ :: _ => true end
  | PDict d => negb (bool_decide (d = ∅))
  end.

(** [a or b]. *)
Definition py_or (a b : pyval) : pyval := if truthy a then a else b.

(** [m.get(k)]: the value, or [None] when the key is missing. *)
Definition dict_get (m : gmap string pyval) (k : string) : pyval :=
  default PNone (m !! k).

(** ** [float(v)] *)

Module PyFloat.

Definition code (c : ascii) : N := N_of_ascii c.

(** The characters [float] strips from both ends of a string. *)
Definition is_space (c : ascii) : bool :=
  let n := code c in
  ((9 <=? n) && (n <=? 13) || (n =? 32) || (n =? 133) || (n =? 160))%N.

Definition is_digit (c : ascii) : bool :=
  let n := code c in ((48 <=? n) && (n <=? 57))%N.

Definition digit_val (c : ascii) : Z := Z.of_N (code c) - 48.

Definition lower (c : ascii) : ascii :=
  let n := code c in
  if ((65 <=? n) && (n <=? 90))%N then ascii_of_N (n + 32) else c.

Fixpoint lstrip (l : list ascii) : list ascii :=
  match l with
  | c :: l' => if is_space c then lstrip l' else l
  | [] => []
  end.

Definition strip (l : list ascii) : list ascii :=
  rev (lstrip (rev (lstrip l))).

(** An underscore is accepted only between two digits; accepted ones are
    dropped.  [prev] is the character before the head of [l]. *)
Fixpoint drop_underscores (prev : option ascii) (l : list ascii)
  : option (list ascii) :=
  match l with
  | [] => Some []
  | c :: l' =>
      if Ascii.eqb c "_" then
        match prev, l' with
        | Some p, n :: _ =>
            if is_digit p && is_digit n then drop_underscores (Some c) l'
            else None
        | _, _ => None
        end
      else option_map (cons c) (drop_underscores (Some c) l')
  end.

(** The longest prefix of digits, and what follows it. *)
Fixpoint span_digits (l : list ascii) : list ascii * list ascii :=
  match l with
  | c :: l' =>
      if is_digit c then let '(ds, r) := span_digits l' in (c :: ds, r)
      else ([], l)
  | [] => ([], [])
  end.

Definition digits_val (ds : list ascii) : Z :=
  fold_left (fun acc c => 10 * acc + digit_val c)%Z ds 0%Z.

Definition split_sign (l : list ascii) : bool * list ascii :=
  match l with
  | c :: l' =>
      if Ascii.eqb c "-" then (true, l')
      else if Ascii.eqb c "+" then (false, l')
      else (false, l)
  | [] => (false, [])
  end.

(** [[sign] digits [. digits] [(e|E) [sign] digits]], at least one digit in
    the mantissa, nothing left over: sign, decimal mantissa and decimal
    exponent. *)
Definition parse_decimal (l : list ascii) : option (bool * Z * Z) :=
  let '(neg, l1) := split_sign l in
  let '(ip, l2) := span_digits l1 in
  let '(fp, l3) :=
    match l2 with
    | c :: l2' => if Ascii.eqb c "." then span_digits l2' else ([], l2)
    | [] => ([], [])
    end in
  match ip ++ fp with
  | [] => None
  | _ :: _ =>
      let m := digits_val (ip ++ fp) in
      let e0 := (- Z.of_nat (length fp))%Z in
      match l3 with
      | [] => Some (neg, m, e0)
      | c :: l4 =>
          if Ascii.eqb (lower c) "e" then
            let '(eneg, l5) := split_sign l4 in
            match span_digits l5 with
            | ((_ :: _) as ed, []) =>
                let e := digits_val ed in
                Some (neg, m, (e0 + (if eneg then - e else e))%Z)
            | _ => None
            end
          else None
      end
  end.

(** The double nearest to [m * 10^e] (ties to even), with the given sign. *)
Definition round_decimal (neg : bool) (m e : Z) : float :=
  match m with
  | Zpos p =>
      if (0 <=? e)%Z then
        SF2Prim (binary_normalize prec emax
                   (if neg then - (m * 10 ^ e) else m * 10 ^ e)%Z 0 false)
      else
        match (10 ^ (- e))%Z with
        | Zpos q =>
            SF2Prim (SFdiv prec emax (S754_finite neg p 0) (S754_finite false q 0))
        | _ => nan
        end
  | _ => if neg then PrimFloat.neg_zero else PrimFloat.zero
  end.

Definition parse_special (l : list ascii) : option float :=
  let '(neg, r) := split_sign l in
  let w := string_of_list_ascii (map lower r) in
  if String.eqb w "inf" || String.eqb w "infinity"
  then Some (if neg then neg_infinity else infinity)
  else if String.eqb w "nan" then Some nan
  else None.

(** [float(s)] for a string; [None] stands for [ValueError]. *)
Definition of_str (s : string) : option float :=
  match drop_underscores None (strip (list_ascii_of_string s)) with
  | None => None
  | Some l =>
      match parse_decimal l with
      | Some (neg, m, e) => Some (round_decimal neg m e)
      | None => parse_special l
      end
  end.

(** [float(z)] for an integer; [None] stands for [OverflowError]. *)
Definition of_int (z : Z) : option float :=
  let f := SF2Prim (binary_normalize prec emax z 0 false) in
  if is_infinity f then None else Some f.

(** [float(v)]; [None] stands for the [TypeError], [ValueError] or
    [OverflowError] the call raises. *)
Definition of_val (v : pyval) : option float :=
  match v with
  | PNone => None
  | PBool b => Some (if b then 1 else 0)%float
  | PInt z => of_int z
  | PFloat f => Some f
  | PStr s => of_str s
  | PList _ => None
  | PDict _ => None
  end.

End PyFloat.

(** ** [trading.types] and [trading.feed]

    Modelled from the spec: the data classes [TopOfBook], [TradeTick],
    [BookEvent] and [TradeEvent] are imported by the sources but declared
    elsewhere; their fields are the keyword arguments the sources construct
    them with (spec, section 3). *)

Inductive Side := buy | sell.

Module TopOfBook.
Record t := mk {
  best_bid : option float;
  best_bid_size : option float;
  best_ask : option float;
  best_ask_size : option float;
  ts : float }.
End TopOfBook.

Module TradeTick.
Record t := mk {
  market_id : string;
  price : float;
  size : float;
  side : Side;
  ts : float }.
End TradeTick.

Inductive FeedEvent :=
| BookEvent (kind : string) (market_id : string) (tob : TopOfBook.t)
| TradeEvent (kind : string) (market_id : string) (trade : TradeTick.t).

Definition event_market (ev : FeedEvent) : string :=
  match ev with
  | BookEvent _ market_id _ => market_id
  | TradeEvent _ market_id _ => market_id
  end.

Definition is_book_event (ev : FeedEvent) : bool :=
  match ev with BookEvent _ _ _ => true | TradeEvent _ _ _ => false end.

Definition is_trade_event (ev : FeedEvent) : bool :=
  match ev with BookEvent _ _ _ => false | TradeEvent _ _ _ => true end.

(** ** Comparisons of optional prices *)

(** [a != b] for two values of type [float | None]. *)
Definition opt_float_ne (a b : option float) : bool :=
  match a, b with
  | None, None => false
  | Some x, Some y => negb (x =? y)%float
  | _, _ => true
  end.

(** A tuple holds objects, and the comparison of two tuples takes two items
    that are the same object for equal without asking [==].  For a float
    that makes a difference for a NaN only, which [==] tells apart from
    itself.

    So a float object is its value and where it comes from.  [float(v)]
    returns [v] itself when [v] is a float: a price read from a JSON number
    is the object the decoder made for the document, and the decoder returns
    one and the same object ([json.decoder.NaN]) for every literal [NaN] of
    every document.  A price read from anything else is an object the call of
    [float] made, and no other object. *)
Module FloatObj.
Record t := mk {
  value : float;
  decoded : bool }.
End FloatObj.

(** Whether [x is y] for two prices that are NaN: when both are the
    decoder's. *)
Definition same_NaN (x y : FloatObj.t) : bool :=
  FloatObj.decoded x && FloatObj.decoded y
  && is_nan (FloatObj.value x) && is_nan (FloatObj.value y).

(** [a is b or a == b] for two items of type [float | None]: the test by
    which tuple comparison looks for the first pair of items that differ. *)
Definition item_eq (a b : option FloatObj.t) : bool :=
  match a, b with
  | None, None => true
  | Some x, Some y => same_NaN x y || (FloatObj.value x =? FloatObj.value y)%float
  | _, _ => false
  end.

(** [prev != cur] where [prev] is [None] or a pair and [cur] is a pair: the
    pairs differ when two items at the same place do; such items are floats
    that are not [==], or a float and [None], and [!=] holds of them. *)
Definition pair_ne (prev : option (option FloatObj.t * option FloatObj.t))
    (cur : option FloatObj.t * option FloatObj.t) : bool :=
  match prev with
  | None => true
  | Some p => negb (item_eq (fst p) (fst cur)) || negb (item_eq (snd p) (snd cur))
  end.

(** ** [connectors/polymarket/gamma_poll_stream.py] *)

Module gamma_poll_stream.

(** What the generator does to the outside, in program order. *)
Inductive Payload :=
| asdict_tob (tob : TopOfBook.t)
| asdict_trade (trade : TradeTick.t).

Inductive Effect :=
| Yield (ev : FeedEvent)
| insert_tape (ts : float) (market_id kind : string) (payload : Payload)
| upsert_runtime_status (component level message detail : string) (ts : float)
| log_exception (event : string).

(** The attributes of a [PolymarketGammaPollStream] that [events] reads or
    writes ([_store] and [_log] are the two collaborators of the trace). *)
Record Stream := mkStream {
  _base : string;
  _poll : float;
  _limit : Z;
  _last : gmap string (option FloatObj.t * option FloatObj.t);
  _last_trade_px : gmap string (option float) }.

Definition set_last (self : Stream) (market_id : string)
    (cur : option FloatObj.t * option FloatObj.t) : Stream :=
  mkStream (_base self) (_poll self) (_limit self)
           (<[market_id := cur]> (_last self)) (_last_trade_px self).

Definition set_last_trade_px (self : Stream) (market_id : string)
    (px : option float) : Stream :=
  mkStream (_base self) (_poll self) (_limit self)
           (_last self) (<[market_id := px]> (_last_trade_px self)).

(** [s.rstrip("/")]. *)
Definition rstrip_slash (s : string) : string :=
  let fix go (l : list ascii) :=
    match l with
    | c :: l' => if Ascii.eqb c "/" then go l' else l
    | [] => []
    end in
  string_of_list_ascii (rev (go (rev (list_ascii_of_string s)))).

(** [max(0.25, p)]: the second argument wins only when it is greater. *)
Definition max_quarter (p : float) : float :=
  if (0.25 <? p)%float then p else 0.25%float.

Definition __init__ (base_url : string) (poll_secs : float) (limit : Z) : Stream :=
  mkStream (rstrip_slash base_url) (max_quarter poll_secs) limit ∅ ∅.

(** The characters [str.strip] removes. *)
Definition str_is_space (c : ascii) : bool :=
  let n := PyFloat.code c in
  ((9 <=? n) && (n <=? 13) || (28 <=? n) && (n <=? 32)
   || (n =? 133) || (n =? 160))%N.

(** [bool(s.strip())]. *)
Definition strip_nonempty (s : string) : bool :=
  existsb (fun c => negb (str_is_space c)) (list_ascii_of_string s).

(** The nested helper of [events]. *)
Definition _to_float (v : pyval) : option float :=
  match v with
  | PNone => None
  | _ => PyFloat.of_val v
  end.

Definition parse_best_bid (m : gmap string pyval) : option float :=
  _to_float (py_or (dict_get m "bestBid") (dict_get m "best_bid")).

Definition parse_best_ask (m : gmap string pyval) : option float :=
  _to_float (py_or (dict_get m "bestAsk") (dict_get m "best_ask")).

Definition parse_last_trade_px (m : gmap string pyval) : option float :=
  _to_float (py_or (dict_get m "lastTradePrice") (dict_get m "last_trade_price")).

(** The object [_to_float(v)] returns: [v] itself when [v] is a float of the
    document, a new float otherwise. *)
Definition _to_float_object (v : pyval) : option FloatObj.t :=
  match _to_float v with
  | Some f => Some (FloatObj.mk f (match v with PFloat _ => true | _ => false end))
  | None => None
  end.

(** [best_bid] and [best_ask] as the objects that line 93 puts into [cur]. *)
Definition best_bid_object (m : gmap string pyval) : option FloatObj.t :=
  _to_float_object (py_or (dict_get m "bestBid") (dict_get m "best_bid")).

Definition best_ask_object (m : gmap string pyval) : option FloatObj.t :=
  _to_float_object (py_or (dict_get m "bestAsk") (dict_get m "best_ask")).

(** [x is not None and abs(float(px) - float(x)) < 1e-9]. *)
Definition hits (x : option float) (px : float) : bool :=
  match x with
  | Some v => (abs (px - v) <? 1e-9)%float
  | None => false
  end.

(** The heuristic side of a trade print (lines 117-127).  Every operand is
    already a float, so nothing raises inside the [try] of these lines and
    its handler never runs. *)
Definition infer_side (last_trade_px : float) (best_bid best_ask : option float)
  : Side :=
  if hits best_ask last_trade_px then buy
  else if hits best_bid last_trade_px then sell
  else
    match best_bid, best_ask with
    | Some b, Some a =>
        let mid := (0.5 * (b + a))%float in
        if (mid <=? last_trade_px)%float then buy else sell
    | _, _ => buy
    end.

(** The variables the loop [for market_id in want] carries from one pass to
    the next. *)
Record Locals := mkLocals {
  self : Stream;
  changed : nat;
  observed : nat }.

(** Lines 80-137: the body, for a market whose record [m] was fetched.
    [best_bid] and [best_ask] are read as values by the events and the side
    inference, and as objects by the comparison of [prev] with [cur]. *)
Definition observe_market (now : float) (m : gmap string pyval) (loc : Locals)
    (market_id : string) : Locals * list Effect :=
  let best_bid := parse_best_bid m in
  let best_ask := parse_best_ask m in
  let last_trade_px := parse_last_trade_px m in
  let prev := _last (self loc) !! market_id in
  let cur := (best_bid_object m, best_ask_object m) in
  let self1 := set_last (self loc) market_id cur in
  let tob := TopOfBook.mk best_bid None best_ask None now in
  let differs := pair_ne prev cur in
  let fx_tape :=
    if differs then [insert_tape (TopOfBook.ts tob) market_id "tob" (asdict_tob tob)]
    else [] in
  let changed1 := if differs then S (changed loc) else changed loc in
  let observed1 := S (observed loc) in
  let fx_book := [Yield (BookEvent "tob" market_id tob)] in
  let prev_trade := mjoin (_last_trade_px self1 !! market_id) in
  let self2 := set_last_trade_px self1 market_id last_trade_px in
  let fx_trade :=
    match last_trade_px with
    | Some px =>
        if opt_float_ne (Some px) prev_trade then
          let side := infer_side px best_bid best_ask in
          let trade := TradeTick.mk market_id px 1 side now in
          [insert_tape (TradeTick.ts trade) market_id "trade" (asdict_trade trade);
           Yield (TradeEvent "trade" market_id trade)]
        else []
    | None => []
    end in
  (mkLocals self2 changed1 observed1, fx_tape ++ fx_book ++ fx_trade).

(** Lines 75-78, then the rest of the body: one pass of the loop. *)
Definition loop_body (now : float) (by_id : gmap string (gmap string pyval))
    (loc : Locals) (market_id : string) : Locals * list Effect :=
  match by_id !! market_id with
  | None => (loc, [])
  | Some m =>
      if negb (truthy (PDict m)) then (loc, [])
      else observe_market now m loc market_id
  end.

Fixpoint for_market_id_in (now : float) (by_id : gmap string (gmap string pyval))
    (loc : Locals) (want : list string) : Locals * list Effect :=
  match want with
  | [] => (loc, [])
  | market_id :: rest =>
      let r1 := loop_body now by_id loc market_id in
      let r2 := for_market_id_in now by_id (fst r1) rest in
      (fst r2, snd r1 ++ snd r2)
  end.

(** *** The turns of [while True] *)

Section WithRepr.

(** [str(v)] for a float, a list or a dict (the shortest round-trip
    representation, and the containers' display). *)
Variable py_repr : pyval -> string.

(** [str(v)]. *)
Definition py_str (v : pyval) : string :=
  match v with
  | PStr s => s
  | PNone => "None"
  | PBool b => if b then "True" else "False"
  | PInt z => pretty z
  | _ => py_repr v
  end.

(** Lines 66-70: the lookup of the fetched records by [str(m.get("id"))];
    a later record replaces an earlier one with the same key. *)
Definition by_id_step (by_id : gmap string (gmap string pyval)) (m : pyval)
  : gmap string (gmap string pyval) :=
  match m with
  | PDict d =>
      match dict_get d "id" with
      | PNone => by_id
      | v => <[py_str v := d]> by_id
      end
  | _ => by_id
  end.

Definition build_by_id (data : pyval) : gmap string (gmap string pyval) :=
  match data with
  | PList l => fold_left by_id_step l ∅
  | _ => ∅
  end.

(** Line 56: [[str(x) for x in (market_ids_provider() or []) if str(x).strip()]]. *)
Definition want_of (provided : option (list pyval)) : list string :=
  List.filter strip_nonempty (map py_str (default [] provided)).

(** What one turn of [while True] reads from the outside: the result of
    [market_ids_provider()], the outcome of the HTTP exchange (session,
    [get], [raise_for_status], [json]), and the two readings of the
    clock. *)
Record Cycle := mkCycle {
  provided : Exn + option (list pyval);
  fetched : Exn + pyval;
  now : float;
  status_ts : float }.

(** How a turn ends: at the next [await asyncio.sleep], or with an
    exception leaving the generator. *)
Inductive Outcome :=
| Continue (st' : Stream) (fx : list Effect)
| Propagate (e : Exn) (fx : list Effect).

Definition ok_status (st : Stream) (want : list string) (loc : Locals)
    (ts : float) : Effect :=
  upsert_runtime_status "feed.gamma" "ok"
    ("gamma polling ok (observed " ++ pretty (observed loc)
       ++ ", changed " ++ pretty (changed loc) ++ ")")
    ("poll_secs=" ++ py_repr (PFloat (_poll st))
       ++ " limit=" ++ pretty (_limit st)
       ++ " want=" ++ pretty (length want))
    ts.

Definition error_status (e : Exn) (ts : float) : Effect :=
  upsert_runtime_status "feed.gamma" "error" "gamma feed failed"
    (exn_type e ++ ": " ++ exn_msg e) ts.

(** Lines 60-145, the [try] block: the stream and the effects when the block
    is left, and the exception that cut it short if one did.  The fetch is
    the one place where the block raises: [_to_float] and the side inference
    catch what they raise, and the calls into the store return. *)
Definition try_block (st : Stream) (want : list string) (c : Cycle)
  : Stream * list Effect * option Exn :=
  match fetched c with
  | inl e => (st, [], Some e)
  | inr data =>
      let by_id := build_by_id data in
      let r := for_market_id_in (now c) by_id (mkLocals st 0 0) want in
      (self (fst r),
       snd r ++ [ok_status (self (fst r)) want (fst r) (status_ts c)],
       None)
  end.

(** Lines 146-154, [except Exception as e], on leaving the block. *)
Definition except_Exception (ts : float) (left : Stream * list Effect * option Exn)
  : Outcome :=
  match left with
  | (st, fx, None) => Continue st fx
  | (st, fx, Some e) =>
      Continue st (fx ++ [log_exception "gamma_feed.error"; error_status e ts])
  end.

(** One turn of [while True] (lines 55-154). *)
Definition cycle (st : Stream) (c : Cycle) : Outcome :=
  match provided c with
  | inl e => Propagate e []
  | inr ids =>
      let want := want_of ids in
      match want with
      | [] => Continue st []
      | _ :: _ => except_Exception (status_ts c) (try_block st want c)
      end
  end.

(** [events], over the turns the consumer lets it run to their end: the
    stream left behind, everything done to the outside, and the exception
    that ended the generator if one did. *)
Record Run := mkRun {
  final : Stream;
  done : list Effect;
  raised : option Exn }.

Fixpoint events (st : Stream) (cs : list Cycle) : Run :=
  match cs with
  | [] => mkRun st [] None
  | c :: rest =>
      match cycle st c with
      | Continue st' fx =>
          let r := events st' rest in
          mkRun (final r) (fx ++ done r) (raised r)
      | Propagate e fx => mkRun st fx (Some e)
      end
  end.

End WithRepr.

End gamma_poll_stream.

(** ** What the design document says of the feed

    Projections of a trace, and the document's rules written over them. *)

Module gamma_poll_stream_spec.
Import gamma_poll_stream.

(** *** Reading a trace *)

Definition yielded (fx : list Effect) : list FeedEvent :=
  omap (fun e => match e with Yield ev => Some ev | _ => None end) fx.

Definition book_events (fx : list Effect) : list FeedEvent :=
  List.filter is_book_event (yielded fx).

Definition trade_events (fx : list Effect) : list FeedEvent :=
  List.filter is_trade_event (yielded fx).

Definition is_tape_write (kind : string) (e : Effect) : bool :=
  match e with
  | insert_tape _ _ k _ => String.eqb k kind
  | _ => false
  end.

(** The [insert_tape] calls of one kind, and all of them. *)
Definition tape_writes_of (kind : string) (fx : list Effect) : list Effect :=
  List.filter (is_tape_write kind) fx.

Definition tape_writes (fx : list Effect) : list Effect :=
  List.filter (fun e => match e with insert_tape _ _ _ _ => true | _ => false end) fx.

Definition status_upserts (fx : list Effect) : list Effect :=
  List.filter
    (fun e => match e with upsert_runtime_status _ _ _ _ _ => true | _ => false end) fx.

(** The market an effect is about, if it is about one. *)
Definition effect_market (e : Effect) : option string :=
  match e with
  | Yield ev => Some (event_market ev)
  | insert_tape _ market_id _ _ => Some market_id
  | _ => None
  end.

(** The effects of a trace that are about one market. *)
Definition is_about (market_id : string) (e : Effect) : bool :=
  match effect_market e with
  | Some x => String.eqb x market_id
  | None => false
  end.

Definition effects_about (market_id : string) (fx : list Effect) : list Effect :=
  List.filter (is_about market_id) fx.

(** [market_id in by_id]. *)
Definition found (by_id : gmap string (gmap string pyval)) (market_id : string) : bool :=
  match by_id !! market_id with Some _ => true | None => false end.

(** Every record of a lookup is a non-empty dict. *)
Definition all_truthy (by_id : gmap string (gmap string pyval)) : Prop :=
  forall market_id m, by_id !! market_id = Some m -> truthy (PDict m) = true.


(** [cur], the pair line 93 builds from a record. *)
Definition cur_of (m : gmap string pyval) : option FloatObj.t * option FloatObj.t :=
  (best_bid_object m, best_ask_object m).

(** The values of the two objects of a pair. *)
Definition pair_values (p : option FloatObj.t * option FloatObj.t)
  : option float * option float :=
  (FloatObj.value <$> fst p, FloatObj.value <$> snd p).


(** The design document's resolution of an attribute: the value of the first
    candidate name that is a key of the record. *)
Fixpoint first_present_wins (names : list string) (m : gmap string pyval) : pyval :=
  match names with
  | [] => PNone
  | k :: rest =>
      match m !! k with
      | Some v => v
      | None => first_present_wins rest m
      end
  end.

(** The resolution by truth value: the value of the first candidate name
    whose value is truthy, else the value of the last candidate ([None] when
    that name is missing). *)
Fixpoint first_truthy_wins (names : list string) (m : gmap string pyval) : pyval :=
  match names with
  | [] => PNone
  | k :: rest =>
      match rest with
      | [] => dict_get m k
      | _ :: _ =>
          if truthy (dict_get m k) then dict_get m k else first_truthy_wins rest m
      end
  end.

(** The design document's precedence for the side of a trade print at [px]:
    the ask within 1e-9, else the bid within 1e-9, else the midpoint when
    both are quoted, else buy. *)
Definition side_precedence (px : float) (bid ask : option float) (side : Side) : Prop :=
  (hits ask px = true -> side = buy)
  /\ (hits ask px = false -> hits bid px = true -> side = sell)
  /\ (hits ask px = false -> hits bid px = false ->
      forall b a, bid = Some b -> ask = Some a ->
        side = if (0.5 * (b + a) <=? px)%float then buy else sell)
  /\ (hits ask px = false -> hits bid px = false ->
      bid = None \/ ask = None -> side = buy).



(** The stream remembers, for every requested market that was found, what
    the record of the market parses to. *)
Definition remembers (by_id : gmap string (gmap string pyval)) (want : list string)
    (st : Stream) : Prop :=
  forall market_id m,
    In market_id want -> by_id !! market_id = Some m ->
    _last st !! market_id = Some (cur_of m)
    /\ _last_trade_px st !! market_id = Some (parse_last_trade_px m).


(** The design document's rule for trade prints, read the same way: a
    [TradeEvent] and a "trade" row if and only if a last-trade price was
    parsed and differs from [prev_trade], the value stored before. *)
Definition trade_print_rule (now : float) (market_id : string) (m : gmap string pyval)
    (prev_trade : option float) (fx : list Effect) : Prop :=
  (exists px,
     let trade :=
       TradeTick.mk market_id px 1
         (infer_side px (parse_best_bid m) (parse_best_ask m)) now in
     parse_last_trade_px m = Some px
     /\ opt_float_ne (Some px) prev_trade = true
     /\ trade_events fx = [TradeEvent "trade" market_id trade]
     /\ tape_writes_of "trade" fx = [insert_tape now market_id "trade" (asdict_trade trade)])
  \/ ((parse_last_trade_px m = None
       \/ opt_float_ne (parse_last_trade_px m) prev_trade = false)
      /\ trade_events fx = []
      /\ tape_writes_of "trade" fx = []).

End gamma_poll_stream_spec.

(** ** [execution/base.py] and [execution/shadow.py] *)

Module execution.

(** Dict objects live in a heap and are passed by reference, so that a
    mutation through one reference is seen through every other. *)
Abbreviation loc := positive.
Abbreviation Heap := (gmap loc (gmap string pyval)).

(** [execution.base.OrderRequest] (a frozen data class). *)
Module OrderRequest.
Record t := mk {
  market_id : string;
  side : Side;
  price : float;
  size : float;
  meta : option loc }.
End OrderRequest.

(** Modelled from the spec: [trading.types.Order] is declared outside the
    sources; its fields are the keyword arguments of [place_limit]'s
    constructor call (spec, section 3). *)
Module Order.
Record t := mk {
  order_id : string;
  market_id : string;
  side : Side;
  price : float;
  size : float;
  created_ts : float;
  status : string;
  filled_size : float }.
End Order.

Inductive LogValue :=
| LStr (s : string)
| LSide (s : Side)
| LFloat (f : float)
| LRef (l : loc).

(** Calls into the store and the logger.  [insert_order] receives
    [{**asdict(o), "meta": meta}]: the order's fields, the reference [meta],
    and (for the reader of the trace) the items that dict holds when the
    call is made. *)
Inductive Effect :=
| insert_order (o : Order.t) (meta : loc) (meta_items : gmap string pyval)
| log_info (event : string) (fields : list (string * LogValue)).

Record World := mkWorld {
  heap : Heap;
  trace : list Effect }.

Definition emit (w : World) (fx : Effect) : World :=
  mkWorld (heap w) (trace w ++ [fx]).

(** What a call reads from the outside: the 16 bytes [uuid4] draws from
    [os.urandom], as a number, and the clock. *)
Record Ambient := mkAmbient {
  urandom : N;
  clock : float }.

(** [uuid.uuid4()]: version and variant bits forced on 128 random bits. *)
Definition uuid4 (rnd : N) : N :=
  let i := (rnd mod 2 ^ 128)%N in
  let i := N.lor (N.ldiff i (N.shiftl 0xc000 48)) (N.shiftl 0x8000 48) in
  N.lor (N.ldiff i (N.shiftl 0xf000 64)) (N.shiftl 4 76).

Definition hex_digit (n : N) : ascii :=
  nth (N.to_nat n) (list_ascii_of_string "0123456789abcdef") "0"%char.

(** ['%032x' % i]. *)
Definition hex32 (i : N) : list ascii :=
  map (fun k => hex_digit ((i / 16 ^ (31 - N.of_nat k)) mod 16)%N) (seq 0 32).

(** [str(u)] for a UUID: 8-4-4-4-12 hexadecimal digits. *)
Definition uuid_str (u : N) : string :=
  let h := hex32 u in
  let dash := ["-"%char] in
  string_of_list_ascii
    (take 8 h ++ dash ++ take 4 (drop 8 h) ++ dash ++ take 4 (drop 12 h)
       ++ dash ++ take 4 (drop 16 h) ++ dash ++ drop 20 h).

(** [dict(src)]: a new dict object with the items of [src] (the values
    themselves are shared, and nothing here writes into them). *)
Definition dict_copy (h : Heap) (items : gmap string pyval) : loc * Heap :=
  let l := fresh (dom h) in (l, <[l := items]> h).

(** [d[k] = v] on the dict object at [l]. *)
Definition dict_setitem (h : Heap) (l : loc) (k : string) (v : pyval) : Heap :=
  alter (fun d => <[k := v]> d) l h.

(** [req.meta or {}]: the items of the dict the request refers to, or of a
    new empty dict when the reference is [None] or the dict is empty. *)
Definition meta_or_empty (h : Heap) (meta : option loc) : gmap string pyval :=
  match meta with
  | Some l =>
      let d := default ∅ (h !! l) in
      if truthy (PDict d) then d else ∅
  | None => ∅
  end.

Section WithFill.

(** [trading.types.Fill]: declared outside the sources, never built here. *)
Context {Fill : Type}.

(** [execution.base.Broker]: four abstract methods, and [on_trade]. *)
Class Broker (B : Type) := {
  place_limit : B -> Ambient -> World -> OrderRequest.t -> Order.t * World;
  cancel : B -> World -> string -> World;
  cancel_all_market : B -> World -> string -> World;
  on_book : B -> World -> string -> TopOfBook.t -> list Fill * World;
  on_trade : B -> World -> string -> TradeTick.t -> list Fill * World }.

(** [Broker.on_trade], the body a subclass inherits. *)
Definition Broker_on_trade {B : Type} (self : B) (w : World)
    (market_id : string) (trade : TradeTick.t) : list Fill * World :=
  ([], w).

(** [ShadowBroker] keeps no attribute besides its two collaborators. *)
Inductive ShadowBroker : Type := shadow_broker.

Definition ShadowBroker_place_limit (self : ShadowBroker) (amb : Ambient)
    (w : World) (req : OrderRequest.t) : Order.t * World :=
  let oid := uuid_str (uuid4 (urandom amb)) in
  let now := clock amb in
  let o := Order.mk oid (OrderRequest.market_id req) (OrderRequest.side req)
             (OrderRequest.price req) (OrderRequest.size req)
             now "rejected" 0%float in
  let '(meta, h1) := dict_copy (heap w) (meta_or_empty (heap w) (OrderRequest.meta req)) in
  let h2 := dict_setitem h1 meta "execution_mode" (PStr "shadow") in
  let w1 := mkWorld h2 (trace w) in
  let w2 := emit w1 (insert_order o meta (default ∅ (h2 !! meta))) in
  let w3 := emit w2 (log_info "order.shadow"
              [("order_id", LStr (Order.order_id o));
               ("market_id", LStr (Order.market_id o));
               ("side", LSide (Order.side o));
               ("price", LFloat (Order.price o));
               ("size", LFloat (Order.size o));
               ("meta", LRef meta)]) in
  (o, w3).

Definition ShadowBroker_cancel (self : ShadowBroker) (w : World)
    (order_id : string) : World :=
  emit w (log_info "order.cancel.shadow" [("order_id", LStr order_id)]).

Definition ShadowBroker_cancel_all_market (self : ShadowBroker) (w : World)
    (market_id : string) : World :=
  emit w (log_info "order.cancel_all_market.shadow" [("market_id", LStr market_id)]).

Definition ShadowBroker_on_book (self : ShadowBroker) (w : World)
    (market_id : string) (tob : TopOfBook.t) : list Fill * World :=
  ([], w).

Definition ShadowBroker_on_trade (self : ShadowBroker) (w : World)
    (market_id : string) (trade : TradeTick.t) : list Fill * World :=
  ([], w).

#[export] Instance ShadowBroker_Broker : Broker ShadowBroker := {
  place_limit := ShadowBroker_place_limit;
  cancel := ShadowBroker_cancel;
  cancel_all_market := ShadowBroker_cancel_all_market;
  on_book := ShadowBroker_on_book;
  on_trade := ShadowBroker_on_trade }.

End WithFill.

End execution.

(** ** What the design document says of the shadow broker *)

Module execution_spec.
Import execution.

(** The items of the request's metadata, none when it has no metadata. *)
Definition request_meta_items (h : Heap) (req : OrderRequest.t) : gmap string pyval :=
  match OrderRequest.meta req with
  | Some l => default ∅ (h !! l)
  | None => ∅
  end.

(** The order records a trace persists. *)
Definition order_inserts (fx : list Effect) : list Effect :=
  List.filter (fun e => match e with insert_order _ _ _ => true | _ => false end) fx.

End execution_spec.

(** ** Inputs for worked runs *)

Module samples.
Import gamma_poll_stream.

(** The runs below never display a float or a container, so any display
    serves. *)
Definition any_repr (v : pyval) : string := "?".

Definition stream0 : Stream := __init__ "https://gamma-api.polymarket.com/" 1 500.

(** [{"id": id, "bestBid": bid, "bestAsk": ask, "lastTradePrice": last}]. *)
Definition quote_items (id : string) (bid ask last : pyval) : gmap string pyval :=
  <["id" := PStr id]> (<["bestBid" := bid]> (<["bestAsk" := ask]>
    (<["lastTradePrice" := last]> ∅))).

Definition quote (id : string) (bid ask last : pyval) : pyval :=
  PDict (quote_items id bid ask last).

Definition snapshot : pyval :=
  PList [quote "1" (PFloat 0.40) (PFloat 0.42) (PFloat 0.41);
         quote "2" (PStr "0.55") PNone (PInt 1)].

(** Markets "1" and "2" are listed, "9" is not. *)
Definition requested : option (list pyval) :=
  Some [PStr "1"; PStr "9"; PStr "2"].

Definition turn (now : float) : Cycle :=
  mkCycle (inr requested) (inr snapshot) now (now + 0.5)%float.



Definition timeout : Exn := {| exn_type := "TimeoutError"; exn_msg := "" |}.

Definition failed_turn (now : float) : Cycle :=
  mkCycle (inr requested) (inl timeout) now (now + 20)%float.

(** A provider that names market "1" twice. *)
Definition repeated : option (list pyval) :=
  Some [PStr "1"; PStr "2"; PStr "1"].

(** A document with a record whose id is one space, and a provider that
    names that id. *)
Definition blank_snapshot : pyval :=
  PList [quote " " (PFloat 0.40) (PFloat 0.42) PNone].

Definition blank_listed : option (list pyval) := Some [PStr " "].

(** A snapshot whose only record quotes the bid as the JSON literal [NaN]. *)
Definition literal_nan_snapshot : pyval :=
  PList [PDict (<["id" := PStr "1"]> (<["bestBid" := PFloat nan]> ∅))].

Definition literal_nan_turn (now : float) : Cycle :=
  mkCycle (inr (Some [PStr "1"])) (inr literal_nan_snapshot) now (now + 0.5)%float.

(** A provider that names nothing that can be looked up. *)
Definition blank_ids : option (list pyval) := Some [PStr ""; PStr "  "].

(** The body of an error answer: a JSON object, not a list. *)
Definition error_document : pyval :=
  PDict (<["error" := PStr "rate limited"]> ∅).

End samples.

Module shadow_samples.
Import execution.

(** A heap holding the caller's metadata [{"strategy": "mm"}] at address 1. *)
Definition caller_meta : gmap string pyval := <["strategy" := PStr "mm"]> ∅.

Definition world0 : World := mkWorld (<[1%positive := caller_meta]> ∅) [].

Definition request : OrderRequest.t :=
  OrderRequest.mk "m1" buy 0.5 10 (Some 1%positive).

Definition ambient : Ambient := mkAmbient 0x0123456789abcdef0123456789abcdef 1700000000.

End shadow_samples.

(** ** [tmp_ws_smoke.py]: the loop of [main] over the feed *)

Module tmp_ws_smoke.

(** [ev.kind]. *)
Definition event_kind (ev : FeedEvent) : string :=
  match ev with
  | BookEvent kind _ _ => kind
  | TradeEvent kind _ _ => kind
  end.

(** What the feed delivers next, with what [time.time()] returns in the
    [print] of line 54 (read only when that line runs) and in the test of
    line 55. *)
Record Arrival := mkArrival {
  ev : FeedEvent;
  print_ts : float;
  check_ts : float }.

(** The [print] of line 54. *)
Inductive Output :=
| print_event (ts : float) (event market_id : string).

(** The variables of lines 42-44. *)
Record Tally := mkTally {
  n : nat;
  kinds : gmap string nat;
  markets_seen : gset string }.

Definition initial : Tally := mkTally 0 ∅ ∅.

(** Line 55: [time.time() - start >= seconds]. *)
Definition timed_out (start seconds : float) (a : Arrival) : bool :=
  (seconds <=? check_ts a - start)%float.

(** Lines 50-54. *)
Definition count_event (t : Tally) (a : Arrival) : Tally * list Output :=
  let n1 := S (n t) in
  let kind := event_kind (ev a) in
  let kinds1 := <[kind := default 0 (kinds t !! kind) + 1]> (kinds t) in
  let seen1 := markets_seen t ∪ {[event_market (ev a)]} in
  (mkTally n1 kinds1 seen1,
   if (n1 <=? 5)%nat then [print_event (print_ts a) kind (event_market (ev a))]
   else []).

(** Lines 49-56: [async for ev in feed.events(provider)], over the events
    the feed delivers before it ends. *)
Fixpoint async_for (start seconds : float) (t : Tally) (arrivals : list Arrival)
  : Tally * list Output :=
  match arrivals with
  | [] => (t, [])
  | a :: rest =>
      let r1 := count_event t a in
      if timed_out start seconds a then r1
      else
        let r2 := async_for start seconds (fst r1) rest in
        (fst r2, snd r1 ++ snd r2)
  end.

(** The arrivals up to and including the first one that times out. *)
Fixpoint consumed (start seconds : float) (arrivals : list Arrival) : list Arrival :=
  match arrivals with
  | [] => []
  | a :: rest =>
      if timed_out start seconds a then [a] else a :: consumed start seconds rest
  end.

(** The dict printed at line 54 for an arrival. *)
Definition printed (a : Arrival) : Output :=
  print_event (print_ts a) (event_kind (ev a)) (event_market (ev a)).

(** How many of the arrivals are of one kind. *)
Definition count_kind (kind : string) (arrivals : list Arrival) : nat :=
  length (List.filter (fun a => String.eqb (event_kind (ev a)) kind) arrivals).

End tmp_ws_smoke.

(** ** Further readings of a feed trace *)

Module gamma_poll_stream_journal.
Import gamma_poll_stream.

(** A trace in which a tape row is only ever written right before the event
    it records is yielded, with the event's market, kind, time and content,
    and in which no [TradeEvent] goes without its row. *)
Inductive journaled : list Effect -> Prop :=
| journaled_nil : journaled []
| journaled_book kind market_id tob rest :
    journaled rest ->
    journaled (Yield (BookEvent kind market_id tob) :: rest)
| journaled_tob market_id tob rest :
    journaled rest ->
    journaled (insert_tape (TopOfBook.ts tob) market_id "tob" (asdict_tob tob)
                 :: Yield (BookEvent "tob" market_id tob) :: rest)
| journaled_trade market_id trade rest :
    journaled rest ->
    journaled (insert_tape (TradeTick.ts trade) market_id "trade" (asdict_trade trade)
                 :: Yield (TradeEvent "trade" market_id trade) :: rest)
| journaled_status component level message detail ts rest :
    journaled rest ->
    journaled (upsert_runtime_status component level message detail ts :: rest)
| journaled_log event rest :
    journaled rest ->
    journaled (log_exception event :: rest).

(** The fields of an effect that do not depend on the record observed. *)
Definition stamped (now : float) (e : Effect) : Prop :=
  match e with
  | Yield (BookEvent kind _ tob) =>
      kind = "tob" /\ TopOfBook.ts tob = now
      /\ TopOfBook.best_bid_size tob = None /\ TopOfBook.best_ask_size tob = None
  | Yield (TradeEvent kind market_id trade) =>
      kind = "trade" /\ TradeTick.ts trade = now
      /\ TradeTick.size trade = 1%float /\ TradeTick.market_id trade = market_id
  | insert_tape ts _ _ _ => ts = now
  | _ => True
  end.

(** The record a turn observes for a market: the one the lookup holds, if
    the market was requested. *)
Definition observed_record (by_id : gmap string (gmap string pyval))
    (want : list string) (market_id : string) : option (gmap string pyval) :=
  if in_dec string_dec market_id want then by_id !! market_id else None.

(** The record of a market parses to a last-trade price. *)
Definition quotes_last_trade (by_id : gmap string (gmap string pyval))
    (market_id : string) : bool :=
  match by_id !! market_id with
  | Some m => match parse_last_trade_px m with Some _ => true | None => false end
  | None => false
  end.

(** What a turn did to the outside, however it ended. *)
Definition outcome_trace (o : Outcome) : list Effect :=
  match o with
  | Continue _ fx => fx
  | Propagate _ fx => fx
  end.

End gamma_poll_stream_journal.

(** ** A caller of a broker *)

Module broker_session.
Import execution.

Section WithFill.

Context {Fill : Type}.

(** The calls the [Broker] interface offers. *)
Inductive Call :=
| call_place_limit (amb : Ambient) (req : OrderRequest.t)
| call_cancel (order_id : string)
| call_cancel_all_market (market_id : string)
| call_on_book (market_id : string) (tob : TopOfBook.t)
| call_on_trade (market_id : string) (trade : TradeTick.t).

(** The calls made one after the other on the same broker: the world left
    behind, the orders [place_limit] returned and the fills the two handlers
    returned, in call order. *)
Fixpoint run {B : Type} `{!Broker (Fill := Fill) B} (self : B) (w : World)
    (calls : list Call) : World * list Order.t * list Fill :=
  match calls with
  | [] => (w, [], [])
  | c :: rest =>
      match c with
      | call_place_limit amb req =>
          let r := place_limit self amb w req in
          let '(w', orders, fills) := run self (snd r) rest in
          (w', fst r :: orders, fills)
      | call_cancel order_id => run self (cancel self w order_id) rest
      | call_cancel_all_market market_id =>
          run self (cancel_all_market self w market_id) rest
      | call_on_book market_id tob =>
          let r := on_book self w market_id tob in
          let '(w', orders, fills) := run self (snd r) rest in
          (w', orders, fst r ++ fills)
      | call_on_trade market_id trade =>
          let r := on_trade self w market_id trade in
          let '(w', orders, fills) := run self (snd r) rest in
          (w', orders, fst r ++ fills)
      end
  end.

Definition is_place_limit (c : Call) : bool :=
  match c with call_place_limit _ _ => true | _ => false end.

End WithFill.

(** The address an order record keeps its metadata at. *)
Definition insert_meta (e : Effect) : option loc :=
  match e with
  | insert_order _ meta _ => Some meta
  | log_info _ _ => None
  end.

Definition insert_row (e : Effect) : option Order.t :=
  match e with
  | insert_order o _ _ => Some o
  | log_info _ _ => None
  end.

End broker_session.

(** * The Python primitives on sample values *)

Module python_facts.

(** Decimal strings round to the nearest double, ties to even; blanks at the
    ends and underscores between digits are accepted. *)
Example float_of_decimal_strings :
  map PyFloat.of_str ["0.41"; " 1_0.5e1 "; "5."; ".5"; "-0"; "1e23"; "9007199254740993"]
  = [Some 0.41%float; Some 105%float; Some 5%float; Some 0.5%float;
     Some PrimFloat.neg_zero; Some 0x1.52d02c7e14af6p+76%float;
     Some 9007199254740992%float].
Proof. now vm_compute. Qed.

Example float_of_special_strings :
  map PyFloat.of_str ["nan"; "-NaN"; "inf"; "-Infinity"; "1e400"; "2.4703282292062327e-324"]
  = [Some nan; Some nan; Some infinity; Some neg_infinity; Some infinity;
     Some PrimFloat.zero].
Proof. now vm_compute. Qed.

Example float_rejects_strings :
  map PyFloat.of_str [""; " "; "abc"; "."; "1__0"; "_1"; "1_"; "0x10"; "1 .5"; "1e"; "infinit"]
  = [None; None; None; None; None; None; None; None; None; None; None].
Proof. now vm_compute. Qed.

Example float_of_ints :
  map PyFloat.of_int [0; -7; 2 ^ 53 + 1; 2 ^ 1024 - 2 ^ 970 - 1; 2 ^ 1024 - 2 ^ 970]%Z
  = [Some 0%float; Some (-7)%float; Some 9007199254740992%float;
     Some 0x1.fffffffffffffp+1023%float; None].
Proof. now vm_compute. Qed.

Example float_of_other_values :
  map PyFloat.of_val [PBool true; PBool false; PFloat 0.5; PNone; PList []; PDict ∅]
  = [Some 1%float; Some 0%float; Some 0.5%float; None; None; None].
Proof. now vm_compute. Qed.

Example truthy_values :
  map truthy [PNone; PBool false; PInt 0; PFloat 0; PFloat (-0); PStr ""; PList [];
              PDict ∅; PFloat nan; PStr "0"; PInt (-1); PList [PNone]]
  = [false; false; false; false; false; false; false; false; true; true; true; true].
Proof. now vm_compute. Qed.

Example uuid4_of_bits :
  map (fun rnd => execution.uuid_str (execution.uuid4 rnd))
      [0x0123456789abcdef0123456789abcdef; 0; 2 ^ 128 - 1]%N
  = ["01234567-89ab-4def-8123-456789abcdef";
     "00000000-0000-4000-8000-000000000000";
     "ffffffff-ffff-4fff-bfff-ffffffffffff"].
Proof. now vm_compute. Qed.

End python_facts.

(** * Properties of the polling feed *)

Module gamma_poll_stream_facts.
Import gamma_poll_stream gamma_poll_stream_spec.

(** ** Traces *)

Lemma yielded_app fx1 fx2 : yielded (fx1 ++ fx2) = yielded fx1 ++ yielded fx2.
Proof. apply omap_app. Qed.

Lemma book_events_app fx1 fx2 :
  book_events (fx1 ++ fx2) = book_events fx1 ++ book_events fx2.
Proof. unfold book_events. now rewrite yielded_app, List.filter_app. Qed.

Lemma tape_writes_of_app kind fx1 fx2 :
  tape_writes_of kind (fx1 ++ fx2) = tape_writes_of kind fx1 ++ tape_writes_of kind fx2.
Proof. apply List.filter_app. Qed.

Lemma tape_writes_app fx1 fx2 :
  tape_writes (fx1 ++ fx2) = tape_writes fx1 ++ tape_writes fx2.
Proof. apply List.filter_app. Qed.

(** ** One pass of the loop body *)

Lemma loop_body_found now by_id loc market_id m :
  by_id !! market_id = Some m ->
  truthy (PDict m) = true ->
  loop_body now by_id loc market_id = observe_market now m loc market_id.
Proof.
  intros Hm Ht. unfold loop_body. rewrite Hm, Ht. reflexivity.
Qed.

Lemma loop_body_absent now by_id loc market_id :
  by_id !! market_id = None ->
  loop_body now by_id loc market_id = (loc, []).
Proof. intros Hm. unfold loop_body. now rewrite Hm. Qed.

(** Splits on the three tests of [observe_market]. *)
Ltac observe_cases m :=
  unfold observe_market; cbn [fst snd];
  destruct (pair_ne _ _);
  destruct (parse_last_trade_px m) as [?px|];
  try destruct (opt_float_ne _ _).

Lemma observe_market_book now m loc market_id :
  book_events (snd (observe_market now m loc market_id))
  = [BookEvent "tob" market_id
       (TopOfBook.mk (parse_best_bid m) None (parse_best_ask m) None now)].
Proof. observe_cases m; reflexivity. Qed.

Lemma observe_market_tob now m loc market_id :
  tape_writes_of "tob" (snd (observe_market now m loc market_id))
  = if pair_ne (_last (self loc) !! market_id) (cur_of m)
    then [insert_tape now market_id "tob"
            (asdict_tob (TopOfBook.mk (parse_best_bid m) None (parse_best_ask m) None now))]
    else [].
Proof. observe_cases m; reflexivity. Qed.

Lemma observe_market_trade now m loc market_id :
  let trade px :=
    TradeTick.mk market_id px 1
      (infer_side px (parse_best_bid m) (parse_best_ask m)) now in
  let emitted :=
    match parse_last_trade_px m with
    | Some px =>
        if opt_float_ne (Some px) (mjoin (_last_trade_px (self loc) !! market_id))
        then Some (trade px) else None
    | None => None
    end in
  trade_events (snd (observe_market now m loc market_id))
  = match emitted with Some t => [TradeEvent "trade" market_id t] | None => [] end
  /\ tape_writes_of "trade" (snd (observe_market now m loc market_id))
     = match emitted with
       | Some t => [insert_tape now market_id "trade" (asdict_trade t)]
       | None => []
       end.
Proof.
  cbv zeta. unfold observe_market; cbn [fst snd].
  change (_last_trade_px (set_last (self loc) market_id _))
    with (_last_trade_px (self loc)).
  destruct (pair_ne _ _);
    destruct (parse_last_trade_px m) as [px|];
    try destruct (opt_float_ne _ _); split; reflexivity.
Qed.

Lemma observe_market_state now m loc market_id :
  let st' := self (fst (observe_market now m loc market_id)) in
  _last st' = <[market_id := cur_of m]> (_last (self loc))
  /\ _last_trade_px st'
     = <[market_id := parse_last_trade_px m]> (_last_trade_px (self loc))
  /\ _base st' = _base (self loc)
  /\ _poll st' = _poll (self loc)
  /\ _limit st' = _limit (self loc).
Proof. cbv zeta. repeat split; reflexivity. Qed.

Lemma observe_market_about now m loc market_id :
  Forall (fun e => effect_market e = Some market_id)
         (snd (observe_market now m loc market_id)).
Proof. observe_cases m; repeat constructor. Qed.

Lemma loop_body_about now by_id loc market_id :
  Forall (fun e => effect_market e = Some market_id)
         (snd (loop_body now by_id loc market_id)).
Proof.
  unfold loop_body. destruct (by_id !! market_id) as [m|]; [|constructor].
  destruct (negb _); [constructor|]. apply observe_market_about.
Qed.

(** A pass for one market leaves the entries of every other market alone. *)
Lemma loop_body_frame now by_id loc market_id other :
  other <> market_id ->
  let st' := self (fst (loop_body now by_id loc market_id)) in
  _last st' !! other = _last (self loc) !! other
  /\ _last_trade_px st' !! other = _last_trade_px (self loc) !! other.
Proof.
  intros Hne. cbv zeta. unfold loop_body.
  destruct (by_id !! market_id) as [m|]; [|now split].
  destruct (negb _); [now split|].
  destruct (observe_market_state now m loc market_id) as (-> & -> & _).
  split; apply lookup_insert_ne; congruence.
Qed.

(** ** The loop over the requested markets *)

Lemma for_market_id_in_cons now by_id loc market_id rest :
  for_market_id_in now by_id loc (market_id :: rest)
  = (fst (for_market_id_in now by_id (fst (loop_body now by_id loc market_id)) rest),
     snd (loop_body now by_id loc market_id)
       ++ snd (for_market_id_in now by_id (fst (loop_body now by_id loc market_id)) rest)).
Proof. reflexivity. Qed.

Lemma for_market_id_in_app now by_id want1 : forall loc want2,
  for_market_id_in now by_id loc (want1 ++ want2)
  = (fst (for_market_id_in now by_id (fst (for_market_id_in now by_id loc want1)) want2),
     snd (for_market_id_in now by_id loc want1)
       ++ snd (for_market_id_in now by_id (fst (for_market_id_in now by_id loc want1)) want2)).
Proof.
  induction want1 as [|market_id want1 IH]; intros loc want2.
  - cbn. now destruct (for_market_id_in now by_id loc want2).
  - rewrite <- app_comm_cons, !for_market_id_in_cons, IH. cbn [fst snd].
    now rewrite app_assoc.
Qed.

Lemma truthy_of_id d : dict_get d "id" <> PNone -> truthy (PDict d) = true.
Proof.
  intros Hid. cbn. apply negb_true_iff, bool_decide_eq_false. intros ->.
  apply Hid. unfold dict_get. now rewrite lookup_empty.
Qed.

Lemma for_market_id_in_books now by_id :
  all_truthy by_id ->
  forall want loc,
    map event_market (book_events (snd (for_market_id_in now by_id loc want)))
    = List.filter (found by_id) want.
Proof.
  intros Hall. induction want as [|market_id want IH]; intros loc; [reflexivity|].
  rewrite for_market_id_in_cons. cbn [snd List.filter].
  rewrite book_events_app, map_app, IH. unfold found at 2.
  destruct (by_id !! market_id) as [m|] eqn:Hm.
  - rewrite (loop_body_found _ _ _ _ _ Hm (Hall _ _ Hm)), observe_market_book.
    reflexivity.
  - now rewrite (loop_body_absent _ _ _ _ Hm).
Qed.

(** Skipping a market changes nothing for any pass after it. *)
Lemma for_market_id_in_without now by_id market_id :
  by_id !! market_id = None ->
  forall want loc,
    for_market_id_in now by_id loc want
    = for_market_id_in now by_id loc
        (List.filter (fun x => negb (String.eqb x market_id)) want).
Proof.
  intros Hm. induction want as [|x want IH]; intros loc; [reflexivity|].
  cbn [List.filter]. destruct (String.eqb_spec x market_id) as [->|Hne]; cbn [negb].
  - rewrite for_market_id_in_cons, (loop_body_absent _ _ _ _ Hm). cbn [fst snd app].
    rewrite <- IH. now destruct (for_market_id_in now by_id loc want).
  - rewrite !for_market_id_in_cons, <- IH. reflexivity.
Qed.

Lemma for_market_id_in_about now by_id : forall want loc,
  Forall (fun e => exists market_id, In market_id want
                     /\ found by_id market_id = true
                     /\ effect_market e = Some market_id)
         (snd (for_market_id_in now by_id loc want)).
Proof.
  induction want as [|x want IH]; intros loc; [constructor|].
  rewrite for_market_id_in_cons. cbn [snd]. apply Forall_app. split.
  - unfold found. destruct (by_id !! x) as [m|] eqn:Hx.
    + eapply Forall_impl; [apply loop_body_about|].
      intros e He. exists x. rewrite Hx. repeat split; [now left|exact He].
    + rewrite (loop_body_absent _ _ _ _ Hx). constructor.
  - eapply Forall_impl; [apply IH|].
    intros e (y & Hy & Hf & He). exists y. repeat split; [now right|exact Hf|exact He].
Qed.

(** Only the entries of requested markets that were found can move. *)
Lemma for_market_id_in_frame now by_id other : forall want loc,
  (~ In other want \/ by_id !! other = None) ->
  let st' := self (fst (for_market_id_in now by_id loc want)) in
  _last st' !! other = _last (self loc) !! other
  /\ _last_trade_px st' !! other = _last_trade_px (self loc) !! other.
Proof.
  induction want as [|x want IH]; intros loc Hout; cbv zeta; [now split|].
  rewrite for_market_id_in_cons. cbn [fst].
  assert (Hrest : ~ In other want \/ by_id !! other = None).
  { destruct Hout as [Hn|Hn]; [left|now right]. intros Hin. apply Hn. now right. }
  destruct (IH (fst (loop_body now by_id loc x)) Hrest) as [-> ->].
  destruct (String.eqb_spec other x) as [->|Hne].
  - destruct Hout as [Hn|Hn]; [exfalso; apply Hn; now left|].
    now rewrite (loop_body_absent _ _ _ _ Hn).
  - now apply loop_body_frame.
Qed.

Lemma count_occ_filter (f : string -> bool) market_id : forall l,
  count_occ string_dec (List.filter f l) market_id
  = if f market_id then count_occ string_dec l market_id else 0.
Proof.
  induction l as [|x l IH]; cbn [List.filter count_occ].
  - now destruct (f market_id).
  - destruct (f x) eqn:Hx; cbn [count_occ];
      destruct (string_dec x market_id) as [->|Hne]; rewrite IH;
      try rewrite Hx; reflexivity.
Qed.

Lemma count_occ_filter_found by_id market_id : forall want,
  count_occ string_dec (List.filter (found by_id) want) market_id
  = if found by_id market_id then count_occ string_dec want market_id else 0.
Proof.
  induction want as [|x want IH]; cbn [List.filter count_occ].
  - now destruct (found by_id market_id).
  - destruct (found by_id x) eqn:Hx; cbn [count_occ];
      destruct (string_dec x market_id) as [->|Hne]; rewrite IH;
      try rewrite Hx; reflexivity.
Qed.

(** ** What a turn does about one market *)

Lemma effects_about_app market_id fx1 fx2 :
  effects_about market_id (fx1 ++ fx2)
  = effects_about market_id fx1 ++ effects_about market_id fx2.
Proof. apply List.filter_app. Qed.

Lemma effects_about_all market_id fx :
  Forall (fun e => effect_market e = Some market_id) fx ->
  effects_about market_id fx = fx.
Proof.
  induction 1 as [|e fx He _ IH]; [reflexivity|].
  unfold effects_about in *. cbn [List.filter]. unfold is_about at 1.
  now rewrite He, String.eqb_refl, IH.
Qed.

Lemma effects_about_none market_id fx :
  Forall (fun e => effect_market e <> Some market_id) fx ->
  effects_about market_id fx = [].
Proof.
  induction 1 as [|e fx He _ IH]; [reflexivity|].
  unfold effects_about in *. cbn [List.filter]. unfold is_about at 1.
  destruct (effect_market e) as [x|]; [|exact IH].
  destruct (String.eqb_spec x market_id) as [->|_]; [now destruct He|exact IH].
Qed.

Lemma for_market_id_in_not_about now by_id market_id want loc :
  ~ In market_id want ->
  effects_about market_id (snd (for_market_id_in now by_id loc want)) = [].
Proof.
  intros Hout. apply effects_about_none.
  eapply Forall_impl; [apply for_market_id_in_about|].
  intros e (y & Hy & _ & ->) [= ->]. now apply Hout.
Qed.

(** The effects of [observe_market] depend on the stream through its two
    entries for the market only. *)
Lemma observe_market_reads now m loc loc' market_id :
  _last (self loc) !! market_id = _last (self loc') !! market_id ->
  _last_trade_px (self loc) !! market_id = _last_trade_px (self loc') !! market_id ->
  snd (observe_market now m loc market_id) = snd (observe_market now m loc' market_id).
Proof.
  intros H1 H2. unfold observe_market. cbn [snd].
  change (_last_trade_px (set_last (self loc) market_id _))
    with (_last_trade_px (self loc)).
  change (_last_trade_px (set_last (self loc') market_id _))
    with (_last_trade_px (self loc')).
  now rewrite H1, H2.
Qed.

Lemma requested_once_split market_id : forall want,
  count_occ string_dec want market_id = 1 ->
  exists before after,
    want = before ++ market_id :: after
    /\ ~ In market_id before /\ ~ In market_id after.
Proof.
  induction want as [|x want IH]; cbn [count_occ]; [discriminate|].
  destruct (string_dec x market_id) as [->|Hne]; intros Hc.
  - exists [], want. repeat split; [now intros []|].
    apply (count_occ_not_In string_dec). now injection Hc.
  - destruct (IH Hc) as (before & after & -> & Hb & Ha).
    exists (x :: before), after. repeat split; [|exact Ha].
    intros [->|Hin]; [now apply Hne|now apply Hb].
Qed.

(** A market requested once and found: what the loop does about it is what
    [observe_market] does from the loop's initial variables, and its two
    entries end up holding what was parsed. *)
Lemma for_market_id_in_once now by_id loc want market_id m :
  count_occ string_dec want market_id = 1 ->
  by_id !! market_id = Some m ->
  truthy (PDict m) = true ->
  let r := for_market_id_in now by_id loc want in
  effects_about market_id (snd r) = snd (observe_market now m loc market_id)
  /\ _last (self (fst r)) !! market_id = Some (cur_of m)
  /\ _last_trade_px (self (fst r)) !! market_id = Some (parse_last_trade_px m).
Proof.
  intros Hc Hm Ht. cbv zeta.
  destruct (requested_once_split _ _ Hc) as (before & after & -> & Hb & Ha).
  rewrite for_market_id_in_app, for_market_id_in_cons. cbn [fst snd].
  set (loc1 := fst (for_market_id_in now by_id loc before)).
  destruct (for_market_id_in_frame now by_id market_id before loc (or_introl Hb))
    as [Hl1 Hl2]. fold loc1 in Hl1, Hl2.
  rewrite (loop_body_found _ _ _ _ _ Hm Ht).
  set (loc2 := fst (observe_market now m loc1 market_id)).
  destruct (for_market_id_in_frame now by_id market_id after loc2 (or_introl Ha))
    as [Hl3 Hl4].
  destruct (observe_market_state now m loc1 market_id) as (Hs1 & Hs2 & _).
  fold loc2 in Hs1, Hs2. split; [|split].
  - rewrite !effects_about_app, !for_market_id_in_not_about by assumption.
    rewrite (effects_about_all _ _ (observe_market_about now m loc1 market_id)).
    cbn [app]. rewrite app_nil_r. now apply observe_market_reads.
  - now rewrite Hl3, Hs1, lookup_insert_eq.
  - now rewrite Hl4, Hs2, lookup_insert_eq.
Qed.

(** ** Parsing a record *)

Lemma resolutions_agree a b m :
  m !! a = None \/ truthy (dict_get m a) = true ->
  first_truthy_wins [a; b] m = first_present_wins [a; b] m.
Proof.
  cbn [first_truthy_wins first_present_wins]. unfold dict_get.
  destruct (m !! a) as [v|]; cbn [default].
  - intros [[=]| ->]. reflexivity.
  - intros _. cbn [truthy]. now destruct (m !! b).
Qed.

(** C4, as amended.  Each of the three prices is the coercion of the value
    resolved over its two spellings, camelCase first, by truth value: the
    first spelling's value when it is truthy, otherwise the second spelling's
    (null when missing).  This is the first spelling present unless that one
    holds a falsy value (null, zero, false, or an empty string, list or
    object).  Null and every value [float] rejects coerce to an absent price;
    no error is raised. *)
Theorem prices_resolve_first_truthy m :
  parse_best_bid m = _to_float (first_truthy_wins ["bestBid"; "best_bid"] m)
  /\ parse_best_ask m = _to_float (first_truthy_wins ["bestAsk"; "best_ask"] m)
  /\ parse_last_trade_px m
     = _to_float (first_truthy_wins ["lastTradePrice"; "last_trade_price"] m)
  /\ (forall a b,
        m !! a = None \/ truthy (dict_get m a) = true ->
        first_truthy_wins [a; b] m = first_present_wins [a; b] m)
  /\ (forall a b v,
        m !! a = Some v -> truthy v = true ->
        _to_float (first_truthy_wins [a; b] m) = _to_float v)
  /\ _to_float PNone = None
  /\ (forall v, PyFloat.of_val v = None -> _to_float v = None).
Proof.
  repeat split.
  - intros a b. apply resolutions_agree.
  - intros a b v Ha Hv. cbn [first_truthy_wins].
    assert (dict_get m a = v) as -> by (unfold dict_get; now rewrite Ha).
    now rewrite Hv.
  - intros v Hv. now destruct v.
Qed.

(** ** The side of a trade print *)

Lemma infer_side_precedence px bid ask :
  side_precedence px bid ask (infer_side px bid ask).
Proof.
  unfold side_precedence, infer_side. repeat split.
  - now intros ->.
  - now intros -> ->.
  - now intros -> -> b a -> ->.
  - intros -> -> [-> | ->]; [reflexivity|now destruct bid].
Qed.

Lemma observe_market_trade_side now m loc market_id kind market_id' t :
  In (Yield (TradeEvent kind market_id' t)) (snd (observe_market now m loc market_id)) ->
  market_id' = market_id
  /\ parse_last_trade_px m = Some (TradeTick.price t)
  /\ TradeTick.side t
     = infer_side (TradeTick.price t) (parse_best_bid m) (parse_best_ask m).
Proof.
  unfold observe_market. cbn [snd]. intros Hin.
  apply in_app_or in Hin as [Hin|Hin].
  { destruct (pair_ne _ _); [destruct Hin as [[=]|[]]|destruct Hin]. }
  apply in_app_or in Hin as [[[=]|[]]|Hin].
  destruct (parse_last_trade_px m) as [px|]; [|destruct Hin].
  destruct (opt_float_ne _ _); [|destruct Hin].
  destruct Hin as [[=]|[[= _ <- <-]|[]]]. now repeat split.
Qed.

Lemma loop_body_trade_side now by_id loc market_id kind market_id' t :
  In (Yield (TradeEvent kind market_id' t)) (snd (loop_body now by_id loc market_id)) ->
  market_id' = market_id
  /\ exists m,
       by_id !! market_id' = Some m
       /\ parse_last_trade_px m = Some (TradeTick.price t)
       /\ side_precedence (TradeTick.price t) (parse_best_bid m) (parse_best_ask m)
            (TradeTick.side t).
Proof.
  unfold loop_body. destruct (by_id !! market_id) as [m|] eqn:Hm; [|intros []].
  destruct (negb _); [intros []|]. intros Hin.
  destruct (observe_market_trade_side _ _ _ _ _ _ _ Hin) as (-> & Hpx & ->).
  split; [reflexivity|]. exists m. split; [exact Hm|].
  split; [exact Hpx|apply infer_side_precedence].
Qed.

Lemma for_market_id_in_trade_side now by_id kind market_id t : forall want loc,
  In (Yield (TradeEvent kind market_id t)) (snd (for_market_id_in now by_id loc want)) ->
  In market_id want
  /\ exists m,
       by_id !! market_id = Some m
       /\ parse_last_trade_px m = Some (TradeTick.price t)
       /\ side_precedence (TradeTick.price t) (parse_best_bid m) (parse_best_ask m)
            (TradeTick.side t).
Proof.
  induction want as [|x want IH]; intros loc Hin; [destruct Hin|].
  rewrite for_market_id_in_cons in Hin. cbn [snd] in Hin.
  apply in_app_or in Hin as [Hin|Hin].
  - destruct (loop_body_trade_side _ _ _ _ _ _ _ Hin) as [-> Hm].
    split; [now left|exact Hm].
  - destruct (IH _ Hin) as [Hw Hm]. split; [now right|exact Hm].
Qed.

(** C5, as amended.  The side of every [TradeEvent] a turn yields follows
    the precedence: buy when the price is within 1e-9 of the parsed ask,
    else sell when it is within 1e-9 of the parsed bid, else (both parsed)
    buy when the price is at least the midpoint [0.5 * (bid + ask)] computed
    in double precision and sell when it is below, else buy.  With bid 0.40
    and ask 0.42, a print at 0.42 is a buy, one at 0.40 a sell, and one at
    0.41 a sell, because the computed midpoint, 0.41000000000000003, is
    above the double 0.41. *)
Theorem trade_side_follows_precedence :
  (forall px bid ask, side_precedence px bid ask (infer_side px bid ask))
  /\ (forall py_repr st c st' fx kind market_id t,
        cycle py_repr st c = Continue st' fx ->
        In (Yield (TradeEvent kind market_id t)) fx ->
        exists data m,
          fetched c = inr data
          /\ build_by_id py_repr data !! market_id = Some m
          /\ parse_last_trade_px m = Some (TradeTick.price t)
          /\ side_precedence (TradeTick.price t) (parse_best_bid m) (parse_best_ask m)
               (TradeTick.side t))
  /\ infer_side 0.42 (Some 0.40%float) (Some 0.42%float) = buy
  /\ infer_side 0.40 (Some 0.40%float) (Some 0.42%float) = sell
  /\ infer_side 0.41 (Some 0.40%float) (Some 0.42%float) = sell
  /\ (0.5 * (0.40 + 0.42) =? 0.41000000000000003)%float = true
  /\ (0.41 <? 0.5 * (0.40 + 0.42))%float = true.
Proof.
  split; [exact infer_side_precedence|]. split; [|now vm_compute].
  intros py_repr st c st' fx kind market_id t. unfold cycle, try_block.
  destruct (provided c) as [e|ids]; [discriminate|].
  destruct (want_of py_repr ids) as [|x want]; [now intros [= _ <-] []|].
  destruct (fetched c) as [e|data]; cbn [except_Exception].
  - intros [= _ <-] [[=]|[[=]|[]]].
  - intros [= _ <-] Hin. exists data. apply in_app_or in Hin as [Hin|[[=]|[]]].
    destruct (for_market_id_in_trade_side (now c) (build_by_id py_repr data)
                kind market_id t (x :: want) (mkLocals st 0 0) Hin)
      as (_ & m & Hm).
    exists m. split; [reflexivity|exact Hm].
Qed.

(** ** The two rules, for one pass *)


Lemma observe_market_trade_rule now m loc market_id :
  trade_print_rule now market_id m (mjoin (_last_trade_px (self loc) !! market_id))
    (snd (observe_market now m loc market_id)).
Proof.
  destruct (observe_market_trade now m loc market_id) as [He Ht].
  unfold trade_print_rule. rewrite He, Ht.
  destruct (parse_last_trade_px m) as [px|]; [|right; repeat split; now left].
  destruct (opt_float_ne (Some px) _) eqn:Hne.
  - left. exists px. now repeat split.
  - right. repeat split. now right.
Qed.

(** ** Observing the same snapshot again *)

Lemma loop_remembers now by_id :
  all_truthy by_id ->
  forall want loc, remembers by_id want (self (fst (for_market_id_in now by_id loc want))).
Proof.
  intros Hall. induction want as [|x want IH]; intros loc y m Hy Hm; [destruct Hy|].
  rewrite for_market_id_in_cons. cbn [fst].
  destruct (in_dec string_dec y want) as [Hin|Hout]; [now apply IH|].
  destruct Hy as [->|Hy]; [|contradiction].
  destruct (for_market_id_in_frame now by_id y want
              (fst (loop_body now by_id loc y)) (or_introl Hout)) as [-> ->].
  rewrite (loop_body_found _ _ _ _ _ Hm (Hall _ _ Hm)).
  destruct (observe_market_state now m loc y) as (-> & -> & _).
  now rewrite !lookup_insert_eq.
Qed.

Lemma to_float_object_value v : FloatObj.value <$> _to_float_object v = _to_float v.
Proof. unfold _to_float_object. now destruct (_to_float v). Qed.

Lemma cur_of_values m : pair_values (cur_of m) = (parse_best_bid m, parse_best_ask m).
Proof.
  unfold pair_values, cur_of, best_bid_object, best_ask_object. cbn [fst snd].
  now rewrite !to_float_object_value.
Qed.









(** ** One turn of the loop, and the generator *)

Section WithRepr.

Variable py_repr : pyval -> string.

Lemma by_id_step_truthy by_id m :
  all_truthy by_id -> all_truthy (by_id_step py_repr by_id m).
Proof.
  intros Hall. destruct m as [| | | | | |d]; try exact Hall.
  assert (Hins : forall key, dict_get d "id" <> PNone ->
                         all_truthy (<[key := d]> by_id)).
  { intros key Hid k m' Hk. destruct (decide (key = k)) as [->|Hne].
    - rewrite lookup_insert_eq in Hk. injection Hk as <-. now apply truthy_of_id.
    - rewrite lookup_insert_ne in Hk by exact Hne. exact (Hall _ _ Hk). }
  unfold by_id_step. destruct (dict_get d "id") eqn:Hid; try exact Hall;
    apply Hins; discriminate.
Qed.

Lemma build_by_id_truthy data : all_truthy (build_by_id py_repr data).
Proof.
  assert (Hempty : all_truthy ∅).
  { intros k m Hk. now rewrite lookup_empty in Hk. }
  destruct data as [| | | | |l|]; try exact Hempty.
  cbn [build_by_id]. revert Hempty. generalize (∅ : gmap string (gmap string pyval)).
  induction l as [|m l IH]; intros by_id Hall; [exact Hall|].
  cbn [fold_left]. apply IH. now apply by_id_step_truthy.
Qed.

(** A turn whose fetch returned [data]. *)
Lemma cycle_fetched st ids data now ts :
  let want := want_of py_repr ids in
  let r := for_market_id_in now (build_by_id py_repr data) (mkLocals st 0 0) want in
  cycle py_repr st (mkCycle (inr ids) (inr data) now ts)
  = Continue (self (fst r))
      (snd r ++ match want with
                | [] => []
                | _ :: _ => [ok_status py_repr (self (fst r)) want (fst r) ts]
                end).
Proof.
  cbv zeta. unfold cycle, try_block.
  cbn [provided fetched gamma_poll_stream.now status_ts].
  destruct (want_of py_repr ids); reflexivity.
Qed.

(** The [BookEvent]s of a turn whose fetch returned [data]. *)
Lemma fetched_turn_books st ids data now ts st' fx :
  cycle py_repr st (mkCycle (inr ids) (inr data) now ts) = Continue st' fx ->
  map event_market (book_events fx)
  = List.filter (found (build_by_id py_repr data)) (want_of py_repr ids).
Proof.
  rewrite cycle_fetched. cbv zeta. intros [= _ <-].
  rewrite book_events_app, map_app,
    (for_market_id_in_books _ _ (build_by_id_truthy data)).
  match goal with
  | |- _ ++ map event_market (book_events ?tail) = _ =>
      replace (book_events tail) with (@nil FeedEvent)
        by (now destruct (want_of py_repr ids))
  end.
  apply app_nil_r.
Qed.

(** C1, as amended.  In a turn whose fetch returned [data], the request
    [want] is the provider's list, each id as text, without the ids that are
    blank; the [BookEvent]s yielded are, in order, one for each entry of
    [want] that is a key of the lookup built from [data], whatever pairs the
    stream remembered.  So their number is the number of those entries, and
    a market is yielded as often as the provider listed it when its id is
    not blank and is a key of the lookup (once when it was listed once), and
    not at all otherwise. *)
Theorem one_book_event_per_found_market st ids data now ts :
  let by_id := build_by_id py_repr data in
  let listed := map (py_str py_repr) (default [] ids) in
  let want := want_of py_repr ids in
  exists st' fx,
    cycle py_repr st (mkCycle (inr ids) (inr data) now ts) = Continue st' fx
    /\ want = List.filter strip_nonempty listed
    /\ map event_market (book_events fx) = List.filter (found by_id) want
    /\ length (book_events fx) = length (List.filter (found by_id) want)
    /\ (forall market_id,
          count_occ string_dec (map event_market (book_events fx)) market_id
          = if found by_id market_id && strip_nonempty market_id
            then count_occ string_dec listed market_id else 0)
    /\ (forall market_id,
          count_occ string_dec listed market_id = 1 ->
          strip_nonempty market_id = true ->
          found by_id market_id = true ->
          count_occ string_dec (map event_market (book_events fx)) market_id = 1).
Proof.
  cbv zeta. eexists _, _. split; [apply cycle_fetched|].
  pose proof (fetched_turn_books st ids data now ts _ _
                (cycle_fetched st ids data now ts)) as Hbooks.
  cbv zeta in Hbooks.
  match type of Hbooks with
  | context [book_events ?t] => set (fx := t) in *
  end.
  assert (Hcount : forall market_id,
            count_occ string_dec (map event_market (book_events fx)) market_id
            = if found (build_by_id py_repr data) market_id && strip_nonempty market_id
              then count_occ string_dec (map (py_str py_repr) (default [] ids)) market_id
              else 0).
  { intros market_id. rewrite Hbooks, count_occ_filter_found.
    unfold want_of. rewrite count_occ_filter.
    destruct (found _ market_id); [|reflexivity].
    now destruct (strip_nonempty market_id). }
  split; [reflexivity|]. split; [exact Hbooks|]. split; [|split].
  - now rewrite <- Hbooks, length_map.
  - exact Hcount.
  - intros market_id Hone Hblank Hfound. now rewrite Hcount, Hfound, Hblank.
Qed.

(** C8.  A requested market that is not a key of the lookup is passed over:
    its pass through the loop body returns the loop variables as they were
    and does nothing to the outside, the whole loop runs as if the market had
    not been requested (same stream, same counters for the status message,
    same trace), no effect of the turn is about the market, and the stream's
    two entries for it are what they were.  The turn ends normally. *)
Theorem absent_market_is_skipped st ids data now ts market_id :
  build_by_id py_repr data !! market_id = None ->
  let by_id := build_by_id py_repr data in
  let want := want_of py_repr ids in
  (forall loc, loop_body now by_id loc market_id = (loc, []))
  /\ (forall loc,
        for_market_id_in now by_id loc want
        = for_market_id_in now by_id loc
            (List.filter (fun x => negb (String.eqb x market_id)) want))
  /\ exists st' fx,
       cycle py_repr st (mkCycle (inr ids) (inr data) now ts) = Continue st' fx
       /\ Forall (fun e => effect_market e <> Some market_id) fx
       /\ _last st' !! market_id = _last st !! market_id
       /\ _last_trade_px st' !! market_id = _last_trade_px st !! market_id.
Proof.
  intros Habsent. cbv zeta. split; [|split].
  - intros loc. now apply loop_body_absent.
  - intros loc. now apply for_market_id_in_without.
  - eexists _, _. split; [apply cycle_fetched|]. cbv zeta. split; [|split].
    + apply Forall_app. split.
      * eapply Forall_impl; [apply for_market_id_in_about|].
        intros e (y & _ & Hfound & ->) [= ->].
        unfold found in Hfound. now rewrite Habsent in Hfound.
      * destruct (want_of py_repr ids); repeat constructor. discriminate.
    + now apply (for_market_id_in_frame now _ market_id (want_of py_repr ids)
                   (mkLocals st 0 0)); right.
    + now apply (for_market_id_in_frame now _ market_id (want_of py_repr ids)
                   (mkLocals st 0 0)); right.
Qed.

(** C6.  A turn that gets as far as the fetch (something was requested) and
    whose fetch raises [e] ends normally: it logs the failure, upserts the
    status of "feed.gamma" once, at level "error", with detail
    [type: message], yields nothing, writes no tape row and leaves the stream
    as it was; the generator then runs the following turns from that same
    stream.  More generally no turn whose provider returned lets an exception
    out, whatever the fetch did; and wherever the [try] block is cut short,
    the handler does those same two things and nothing else, keeping the
    stream as the block left it. *)
Theorem failed_fetch_is_reported_and_survived st ids e now ts rest :
  want_of py_repr ids <> [] ->
  let c := mkCycle (inr ids) (inl e) now ts in
  let report :=
    upsert_runtime_status "feed.gamma" "error" "gamma feed failed"
      (exn_type e ++ ": " ++ exn_msg e) ts in
  exists fx,
    cycle py_repr st c = Continue st fx
    /\ status_upserts fx = [report]
    /\ yielded fx = []
    /\ tape_writes fx = []
    /\ events py_repr st (c :: rest)
       = mkRun (final (events py_repr st rest))
               (fx ++ done (events py_repr st rest))
               (raised (events py_repr st rest))
    /\ (forall outcome, exists st' fx',
          cycle py_repr st (mkCycle (inr ids) outcome now ts) = Continue st' fx')
    /\ (forall st1 fx1,
          exists fx',
            except_Exception ts (st1, fx1, Some e) = Continue st1 (fx1 ++ fx')
            /\ status_upserts fx' = [report]
            /\ yielded fx' = []
            /\ tape_writes fx' = []).
Proof.
  intros Hwant. cbv zeta.
  assert (Hc : cycle py_repr st (mkCycle (inr ids) (inl e) now ts)
               = Continue st [log_exception "gamma_feed.error"; error_status e ts]).
  { unfold cycle. cbn [provided fetched status_ts].
    destruct (want_of py_repr ids); [contradiction|reflexivity]. }
  eexists. split; [exact Hc|]. do 3 (split; [reflexivity|]). split; [|split].
  - cbn [events]. now rewrite Hc.
  - intros [e'|data]; unfold cycle, try_block; cbn [provided fetched];
      destruct (want_of py_repr ids); cbn [except_Exception]; eauto.
  - intros st1 fx1. eexists. split; [reflexivity|]. now repeat split.
Qed.

(** A market requested once and found, over a whole turn. *)
Lemma turn_about_once st ids data now ts market_id m :
  build_by_id py_repr data !! market_id = Some m ->
  count_occ string_dec (want_of py_repr ids) market_id = 1 ->
  exists st' fx,
    cycle py_repr st (mkCycle (inr ids) (inr data) now ts) = Continue st' fx
    /\ effects_about market_id fx
       = snd (observe_market now m (mkLocals st 0 0) market_id)
    /\ _last st' !! market_id = Some (cur_of m)
    /\ _last_trade_px st' !! market_id = Some (parse_last_trade_px m).
Proof.
  intros Hm Hc. eexists _, _. split; [apply cycle_fetched|]. cbv zeta.
  destruct (for_market_id_in_once now _ (mkLocals st 0 0) _ _ _ Hc Hm
              (build_by_id_truthy data _ _ Hm)) as (He & H1 & H2).
  split; [|now split].
  rewrite effects_about_app, He.
  destruct (want_of py_repr ids); cbn; now rewrite app_nil_r.
Qed.


(** C3.  A pass of the loop body for a market that was found stores the
    parsed last-trade price for the market, whatever it is, and yields a
    [TradeEvent] (writing a "trade" row) if and only if that price is present
    and differs from the value stored before; over a turn that requests the
    market once, "before" is when the turn began. *)
Theorem trade_event_iff_new_last_trade st ids data now ts market_id m :
  build_by_id py_repr data !! market_id = Some m ->
  let by_id := build_by_id py_repr data in
  let want := want_of py_repr ids in
  (forall loc,
     trade_print_rule now market_id m
       (mjoin (_last_trade_px (self loc) !! market_id))
       (snd (loop_body now by_id loc market_id))
     /\ _last_trade_px (self (fst (loop_body now by_id loc market_id))) !! market_id
        = Some (parse_last_trade_px m))
  /\ (count_occ string_dec want market_id = 1 ->
      exists st' fx,
        cycle py_repr st (mkCycle (inr ids) (inr data) now ts) = Continue st' fx
        /\ trade_print_rule now market_id m
             (mjoin (_last_trade_px st !! market_id))
             (effects_about market_id fx)
        /\ _last_trade_px st' !! market_id = Some (parse_last_trade_px m)).
Proof.
  intros Hm. cbv zeta. split.
  - intros loc.
    rewrite (loop_body_found _ _ _ _ _ Hm (build_by_id_truthy data _ _ Hm)).
    split; [apply observe_market_trade_rule|].
    destruct (observe_market_state now m loc market_id) as (_ & -> & _).
    apply lookup_insert_eq.
  - intros Hc.
    destruct (turn_about_once st ids data now ts market_id m Hm Hc)
      as (st' & fx & Hcy & He & _ & Hl).
    exists st', fx. split; [exact Hcy|]. split; [|exact Hl].
    rewrite He. apply (observe_market_trade_rule now m (mkLocals st 0 0)).
Qed.

End WithRepr.

(** ** Worked runs *)

Import samples.


(** The literal [NaN] of a document is one object, which the comparison of
    the pairs takes for equal to itself: the second of two turns on the same
    snapshot writes no row. *)
Lemma unchanged_literal_nan_quote_is_kept :
  tape_writes (done (events any_repr stream0 [literal_nan_turn 1; literal_nan_turn 2]))
  = [insert_tape 1 "1" "tob" (asdict_tob (TopOfBook.mk (Some nan) None None None 1))]
  /\ map event_market
       (book_events (done (events any_repr stream0 [literal_nan_turn 1; literal_nan_turn 2])))
     = ["1"; "1"].
Proof. now vm_compute. Qed.

Lemma one_book_event_per_found_market_witness :
  exists st' fx,
    cycle any_repr stream0 (turn 1) = Continue st' fx
    /\ count_occ string_dec (map event_market (book_events fx)) "1" = 1.
Proof.
  destruct (one_book_event_per_found_market any_repr stream0 requested snapshot
              1 (1 + 0.5))
    as (st' & fx & Hc & _ & _ & _ & _ & Hone).
  exists st', fx. split; [exact Hc|]. apply Hone; now vm_compute.
Defined.

(** A market the provider lists twice is yielded twice, and an id that is
    one space is yielded not at all, although the lookup holds a record
    under either. *)
Lemma listed_twice_or_blank_is_not_yielded_once :
  (found (build_by_id any_repr snapshot) "1" = true
   /\ map event_market
        (book_events
           (done (events any_repr stream0 [mkCycle (inr repeated) (inr snapshot) 1 2])))
      = ["1"; "2"; "1"])
  /\ (found (build_by_id any_repr blank_snapshot) " " = true
      /\ map (py_str any_repr) (default [] blank_listed) = [" "]
      /\ book_events
           (done (events any_repr stream0
                    [mkCycle (inr blank_listed) (inr blank_snapshot) 1 2]))
         = []).
Proof. now vm_compute. Qed.


Lemma trade_event_iff_new_last_trade_witness :
  exists st' fx,
    cycle any_repr stream0 (turn 1) = Continue st' fx
    /\ trade_print_rule 1 "1"
         (quote_items "1" (PFloat 0.40) (PFloat 0.42) (PFloat 0.41)) None
         (effects_about "1" fx)
    /\ _last_trade_px st' !! "1" = Some (Some 0.41%float).
Proof.
  apply (proj2 (trade_event_iff_new_last_trade any_repr stream0 requested snapshot
                  1 (1 + 0.5) "1"
                  (quote_items "1" (PFloat 0.40) (PFloat 0.42) (PFloat 0.41))
                  ltac:(now vm_compute))).
  now vm_compute.
Defined.

(** A bid of 0 is falsy: its spelling is passed over although it is present,
    and with no second spelling the bid comes out absent, not 0.0; with a
    second spelling, that one's value is used instead. *)
Lemma falsy_first_spelling_is_passed_over :
  let zero_bid : gmap string pyval := <["id" := PStr "1"]> (<["bestBid" := PInt 0]> ∅) in
  let both : gmap string pyval :=
    <["bestBid" := PFloat 0]> (<["best_bid" := PFloat 0.5]> ∅) in
  (zero_bid !! "bestBid" = Some (PInt 0)
   /\ _to_float (first_present_wins ["bestBid"; "best_bid"] zero_bid) = Some 0%float
   /\ parse_best_bid zero_bid = None)
  /\ (both !! "bestBid" = Some (PFloat 0)
      /\ _to_float (first_present_wins ["bestBid"; "best_bid"] both) = Some 0%float
      /\ parse_best_bid both = Some 0.5%float).
Proof. now vm_compute. Qed.

Lemma prices_resolve_first_truthy_witness :
  _to_float (first_truthy_wins ["bestBid"; "best_bid"]
               (quote_items "1" (PFloat 0.40) (PFloat 0.42) (PFloat 0.41)))
  = Some 0.40%float.
Proof.
  apply (proj1 (proj2 (proj2 (proj2 (proj2
           (prices_resolve_first_truthy
              (quote_items "1" (PFloat 0.40) (PFloat 0.42) (PFloat 0.41)))))))
           "bestBid" "best_bid" (PFloat 0.40)); now vm_compute.
Defined.

(** Bid 0.40, ask 0.42, print at 0.41: no side is hit, the midpoint
    evaluates above 0.41, and the print is a sell. *)
Lemma midpoint_print_is_a_sell :
  hits (Some 0.42%float) 0.41 = false
  /\ hits (Some 0.40%float) 0.41 = false
  /\ infer_side 0.41 (Some 0.40%float) (Some 0.42%float) = sell
  /\ trade_events (snd (loop_body 1 (build_by_id any_repr snapshot)
                          (mkLocals stream0 0 0) "1"))
     = [TradeEvent "trade" "1" (TradeTick.mk "1" 0.41 1 sell 1)].
Proof. now vm_compute. Qed.

Lemma trade_side_follows_precedence_witness :
  exists data m,
    fetched (turn 1) = inr data
    /\ build_by_id any_repr data !! "1" = Some m
    /\ parse_last_trade_px m = Some 0.41%float
    /\ side_precedence 0.41 (parse_best_bid m) (parse_best_ask m) sell.
Proof.
  refine (proj1 (proj2 trade_side_follows_precedence)
            any_repr stream0 (turn 1) _ _
            "trade" "1" (TradeTick.mk "1" 0.41 1 sell 1) _ _).
  - vm_compute. reflexivity.
  - right. right. right. left. reflexivity.
Defined.

Lemma failed_fetch_is_reported_and_survived_witness :
  exists fx,
    cycle any_repr stream0 (failed_turn 1) = Continue stream0 fx
    /\ status_upserts fx
       = [upsert_runtime_status "feed.gamma" "error" "gamma feed failed"
            "TimeoutError: " (1 + 20)]
    /\ yielded fx = []
    /\ tape_writes fx = []
    /\ events any_repr stream0 [failed_turn 1; turn 2]
       = mkRun (final (events any_repr stream0 [turn 2]))
               (fx ++ done (events any_repr stream0 [turn 2]))
               (raised (events any_repr stream0 [turn 2]))
    /\ (forall outcome, exists st' fx',
          cycle any_repr stream0 (mkCycle (inr requested) outcome 1 (1 + 20))
          = Continue st' fx')
    /\ (forall st1 fx1,
          exists fx',
            except_Exception (1 + 20) (st1, fx1, Some timeout)
            = Continue st1 (fx1 ++ fx')
            /\ status_upserts fx'
               = [upsert_runtime_status "feed.gamma" "error" "gamma feed failed"
                    "TimeoutError: " (1 + 20)]
            /\ yielded fx' = []
            /\ tape_writes fx' = []).
Proof.
  apply (failed_fetch_is_reported_and_survived any_repr stream0 requested timeout
           1 (1 + 20) [turn 2]).
  now vm_compute.
Defined.

Lemma absent_market_is_skipped_witness :
  exists st' fx,
    cycle any_repr stream0 (turn 1) = Continue st' fx
    /\ Forall (fun e => effect_market e <> Some "9") fx
    /\ _last st' !! "9" = _last stream0 !! "9"
    /\ _last_trade_px st' !! "9" = _last_trade_px stream0 !! "9".
Proof.
  apply (proj2 (proj2 (absent_market_is_skipped any_repr stream0 requested snapshot
                         1 (1 + 0.5) "9" ltac:(now vm_compute)))).
Defined.

End gamma_poll_stream_facts.


(** * Properties of the shadow broker *)

Module execution_facts.
Import execution execution_spec.

Lemma length_string_of_list_ascii l :
  String.length (string_of_list_ascii l) = length l.
Proof. induction l as [|c l IH]; cbn; [reflexivity|now rewrite IH]. Qed.

Lemma length_hex32 i : length (hex32 i) = 32.
Proof. unfold hex32. now rewrite length_map, length_seq. Qed.

Lemma length_uuid_str u : String.length (uuid_str u) = 36.
Proof.
  unfold uuid_str. rewrite length_string_of_list_ascii.
  rewrite !length_app, !length_take, !length_drop, length_hex32. reflexivity.
Qed.

Lemma meta_or_empty_items h req :
  meta_or_empty h (OrderRequest.meta req) = request_meta_items h req.
Proof.
  unfold meta_or_empty, request_meta_items.
  destruct (OrderRequest.meta req) as [l|]; [|reflexivity].
  cbn [truthy]. destruct (bool_decide_reflect (default ∅ (h !! l) = ∅)) as [->|_];
    reflexivity.
Qed.

(** The heap after [dict(...)] and the assignment of the marker. *)
Lemma tagged_copy_heap h items :
  let meta := fst (dict_copy h items) in
  dict_setitem (snd (dict_copy h items)) meta "execution_mode" (PStr "shadow")
  = <[meta := <["execution_mode" := PStr "shadow"]> items]> h
  /\ h !! meta = None.
Proof.
  cbv zeta. unfold dict_copy, dict_setitem. cbn [fst snd]. split.
  - apply alter_insert_eq.
  - apply not_elem_of_dom, is_fresh.
Qed.

Lemma place_limit_unfold self amb w req :
  let tagged :=
    <["execution_mode" := PStr "shadow"]> (request_meta_items (heap w) req) in
  let meta := fresh (dom (heap w)) in
  let o := Order.mk (uuid_str (uuid4 (urandom amb)))
             (OrderRequest.market_id req) (OrderRequest.side req)
             (OrderRequest.price req) (OrderRequest.size req)
             (clock amb) "rejected" 0%float in
  ShadowBroker_place_limit self amb w req
  = (o, mkWorld (<[meta := tagged]> (heap w))
          (trace w ++ [insert_order o meta tagged;
                       log_info "order.shadow"
                         [("order_id", LStr (Order.order_id o));
                          ("market_id", LStr (Order.market_id o));
                          ("side", LSide (Order.side o));
                          ("price", LFloat (Order.price o));
                          ("size", LFloat (Order.size o));
                          ("meta", LRef meta)]])).
Proof.
  cbv zeta. unfold ShadowBroker_place_limit.
  rewrite meta_or_empty_items.
  destruct (tagged_copy_heap (heap w) (request_meta_items (heap w) req)) as [Hh _].
  cbv zeta in Hh. unfold dict_copy in *. cbn [fst snd] in Hh |- *. rewrite Hh.
  rewrite lookup_insert_eq. unfold emit. cbn [heap trace default from_option id].
  now rewrite <- app_assoc.
Qed.

(** C7.  [place_limit] returns, for every request, an order with status
    "rejected" and filled size 0.0 that carries the request's market, side,
    price and size, the time of the call, and as identifier the 36 characters
    of the UUID drawn in the call; it persists exactly one order record, whose
    metadata are the request's (none when it has none) with "execution_mode"
    set to "shadow", and logs the placement. *)
Theorem place_limit_rejects_and_records amb w req :
  let r := ShadowBroker_place_limit shadow_broker amb w req in
  let o := fst r in
  let tagged :=
    <["execution_mode" := PStr "shadow"]> (request_meta_items (heap w) req) in
  Order.status o = "rejected"
  /\ Order.filled_size o = 0%float
  /\ Order.order_id o = uuid_str (uuid4 (urandom amb))
  /\ String.length (Order.order_id o) = 36
  /\ Order.created_ts o = clock amb
  /\ (Order.market_id o, Order.side o, Order.price o, Order.size o)
     = (OrderRequest.market_id req, OrderRequest.side req,
        OrderRequest.price req, OrderRequest.size req)
  /\ exists meta later,
       trace (snd r) = trace w ++ later
       /\ order_inserts later = [insert_order o meta tagged]
       /\ tagged !! "execution_mode" = Some (PStr "shadow").
Proof.
  cbv zeta. rewrite place_limit_unfold. cbv zeta. cbn [fst snd trace].
  do 3 (split; [reflexivity|]). split; [apply length_uuid_str|].
  do 2 (split; [reflexivity|]).
  eexists _, _. split; [reflexivity|]. split; [reflexivity|].
  apply lookup_insert_eq.
Qed.

(** C9.  The shadow broker answers every book update and every trade print
    with no fill, and so does the [on_trade] a broker inherits from [Broker];
    none of the three does anything else. *)
Theorem shadow_broker_never_fills (Fill : Type) (B : Type) (b : B)
    (self : ShadowBroker) (w : World) (market_id : string)
    (tob : TopOfBook.t) (trade : TradeTick.t) :
  ShadowBroker_on_book (Fill := Fill) self w market_id tob = ([], w)
  /\ ShadowBroker_on_trade (Fill := Fill) self w market_id trade = ([], w)
  /\ on_book (Fill := Fill) self w market_id tob = ([], w)
  /\ on_trade (Fill := Fill) self w market_id trade = ([], w)
  /\ Broker_on_trade (Fill := Fill) b w market_id trade = ([], w).
Proof. repeat split. Qed.

(** C10.  [place_limit] changes no dict that existed when it was called, the
    one the request refers to included: the marker goes into a dict allocated
    by the call, at an address different from the request's, holding a copy
    of the request's items (no item when the request has no metadata). *)
Theorem place_limit_leaves_request_meta_alone amb w req :
  let h' := heap (snd (ShadowBroker_place_limit shadow_broker amb w req)) in
  (forall l d, heap w !! l = Some d -> h' !! l = Some d)
  /\ (forall l d,
        OrderRequest.meta req = Some l -> heap w !! l = Some d ->
        h' !! l = Some d /\ request_meta_items (heap w) req = d)
  /\ (OrderRequest.meta req = None -> request_meta_items (heap w) req = ∅)
  /\ exists meta,
       heap w !! meta = None
       /\ h' = <[meta := <["execution_mode" := PStr "shadow"]>
                           (request_meta_items (heap w) req)]> (heap w)
       /\ forall l, OrderRequest.meta req = Some l -> is_Some (heap w !! l) ->
                    meta <> l.
Proof.
  cbv zeta. rewrite place_limit_unfold. cbv zeta. cbn [snd heap].
  assert (Hfresh : heap w !! fresh (dom (heap w)) = None)
    by apply not_elem_of_dom, is_fresh.
  assert (Hkeep : forall l d, heap w !! l = Some d ->
            <[fresh (dom (heap w)) :=
                <["execution_mode" := PStr "shadow"]> (request_meta_items (heap w) req)]>
              (heap w) !! l = Some d).
  { intros l d Hl. rewrite lookup_insert_ne; [exact Hl|].
    intros Heq. rewrite Heq, Hl in Hfresh. discriminate. }
  split; [exact Hkeep|]. split; [|split].
  - intros l d Hmeta Hl. split; [now apply Hkeep|].
    unfold request_meta_items. now rewrite Hmeta, Hl.
  - intros Hmeta. unfold request_meta_items. now rewrite Hmeta.
  - exists (fresh (dom (heap w))). split; [exact Hfresh|]. split; [reflexivity|].
    intros l _ [d Hl] Heq. rewrite Heq, Hl in Hfresh. discriminate.
Qed.

(** ** Worked runs *)

Import shadow_samples.

Lemma place_limit_leaves_request_meta_alone_witness :
  heap (snd (ShadowBroker_place_limit shadow_broker ambient world0 request)) !! 1%positive
  = Some caller_meta
  /\ request_meta_items (heap world0) request = caller_meta.
Proof.
  apply (proj1 (proj2 (place_limit_leaves_request_meta_alone ambient world0 request))
           1%positive caller_meta); now vm_compute.
Defined.

End execution_facts.

(** * Further properties of the polling feed *)

Module gamma_poll_stream_more_facts.
Import gamma_poll_stream gamma_poll_stream_spec gamma_poll_stream_journal.
Import gamma_poll_stream_facts.

(** ** Construction *)

Lemma float_ltb_leb x y : (x <? y)%float = true -> (x <=? y)%float = true.
Proof.
  rewrite ltb_spec, leb_spec. unfold SFltb, SFleb.
  now destruct (SFcompare _ _) as [[]|].
Qed.

Lemma max_quarter_floor p : (0.25 <=? max_quarter p)%float = true.
Proof.
  unfold max_quarter. destruct (0.25 <? p)%float eqn:Hp.
  - now apply float_ltb_leb.
  - reflexivity.
Qed.

(** The slashes [rstrip] drops, as a list of characters. *)
Lemma rstrip_go_split l :
  let go :=
    fix go (l : list ascii) : list ascii :=
      match l with
      | c :: l' => if Ascii.eqb c "/" then go l' else l
      | [] => []
      end in
  exists k, l = repeat "/"%char k ++ go l
            /\ (forall rest, go l <> "/"%char :: rest)
            /\ go (go l) = go l.
Proof.
  cbv zeta. induction l as [|c l (k & Hl & Hhead & Hidem)].
  - exists 0. repeat split. intros rest [=].
  - destruct (Ascii.eqb_spec c "/") as [->|Hne].
    + exists (S k). cbn [repeat app].
      repeat split; [now rewrite <- Hl|exact Hhead|exact Hidem].
    + exists 0. cbn [repeat app].
      repeat split; [intros rest [= ->]; contradiction|].
      now destruct (Ascii.eqb_spec c "/") as [->|_].
Qed.

(** X2.  The base URL a stream keeps is the one it was given without its
    trailing slashes: it ends in no slash, only slashes were dropped, and
    stripping it again changes nothing. *)
Theorem base_url_loses_trailing_slashes base_url poll_secs limit :
  let base := _base (__init__ base_url poll_secs limit) in
  (exists k,
     list_ascii_of_string base_url
     = list_ascii_of_string base ++ repeat "/"%char k)
  /\ (forall pre, list_ascii_of_string base <> pre ++ ["/"%char])
  /\ _base (__init__ base poll_secs limit) = base.
Proof.
  cbv zeta. cbn [__init__ _base]. unfold rstrip_slash.
  destruct (rstrip_go_split (rev (list_ascii_of_string base_url)))
    as (k & Hsplit & Hhead & Hidem).
  cbv zeta in Hsplit, Hhead, Hidem.
  rewrite !list_ascii_of_string_of_list_ascii, rev_involutive. split; [|split].
  - exists k. rewrite <- (rev_involutive (list_ascii_of_string base_url)) at 1.
    rewrite Hsplit at 1. rewrite rev_app_distr. f_equal.
    clear. induction k as [|k IH]; [reflexivity|].
    cbn [repeat rev]. rewrite IH. clear.
    induction k as [|k IH]; [reflexivity|]. cbn [repeat app]. now rewrite IH.
  - intros pre Heq. apply (f_equal (@rev ascii)) in Heq.
    rewrite rev_involutive, rev_app_distr in Heq. cbn [rev app] in Heq.
    exact (Hhead _ Heq).
  - now rewrite Hidem.
Qed.

(** ** What a run keeps *)

Lemma observe_market_config now m loc market_id :
  let st' := self (fst (observe_market now m loc market_id)) in
  _base st' = _base (self loc) /\ _poll st' = _poll (self loc)
  /\ _limit st' = _limit (self loc).
Proof. now destruct (observe_market_state now m loc market_id) as (_ & _ & ?). Qed.

Lemma for_market_id_in_config now by_id : forall want loc,
  let st' := self (fst (for_market_id_in now by_id loc want)) in
  _base st' = _base (self loc) /\ _poll st' = _poll (self loc)
  /\ _limit st' = _limit (self loc).
Proof.
  induction want as [|x want IH]; intros loc; cbv zeta; [now repeat split|].
  rewrite for_market_id_in_cons. cbn [fst].
  destruct (IH (fst (loop_body now by_id loc x))) as (-> & -> & ->).
  unfold loop_body. destruct (by_id !! x) as [m|]; [|now repeat split].
  destruct (negb _); [now repeat split|]. apply observe_market_config.
Qed.

Section WithRepr.

Variable py_repr : pyval -> string.

Lemma cycle_config st c st' fx :
  cycle py_repr st c = Continue st' fx ->
  _base st' = _base st /\ _poll st' = _poll st /\ _limit st' = _limit st.
Proof.
  unfold cycle, try_block. destruct (provided c) as [e|ids]; [discriminate|].
  destruct (want_of py_repr ids) as [|x want]; [now intros [= <- _]|].
  destruct (fetched c) as [e|data]; cbn [except_Exception]; intros [= <- _];
    [now repeat split|].
  apply (for_market_id_in_config (now c) _ (x :: want) (mkLocals st 0 0)).
Qed.

Lemma events_config : forall cs st,
  let st' := final (events py_repr st cs) in
  _base st' = _base st /\ _poll st' = _poll st /\ _limit st' = _limit st.
Proof.
  induction cs as [|c cs IH]; intros st; cbv zeta; [now repeat split|].
  cbn [events]. destruct (cycle py_repr st c) as [st1 fx|e fx] eqn:Hc;
    cbn [final]; [|now repeat split].
  destruct (IH st1) as (-> & -> & ->). exact (cycle_config _ _ _ _ Hc).
Qed.

(** X1.  A stream never polls faster than every quarter of a second: the
    interval [__init__] stores is the one asked for when that is above 0.25,
    and 0.25 otherwise (NaN included), and no run of [events] changes it or
    the rest of the configuration. *)
Theorem poll_interval_has_a_floor base_url poll_secs limit cs :
  let st := __init__ base_url poll_secs limit in
  let st' := final (events py_repr st cs) in
  (0.25 <=? _poll st')%float = true
  /\ _poll st' = (if (0.25 <? poll_secs)%float then poll_secs else 0.25%float)
  /\ _base st' = _base st
  /\ _limit st' = limit.
Proof.
  cbv zeta. destruct (events_config cs (__init__ base_url poll_secs limit))
    as (-> & -> & ->).
  cbn [__init__ _poll _limit]. repeat split. apply max_quarter_floor.
Qed.

End WithRepr.

(** ** The request and the lookup *)

Lemma for_market_id_in_counts now by_id : forall want loc,
  let r := for_market_id_in now by_id loc want in
  observed (fst r) = observed loc + length (book_events (snd r))
  /\ changed (fst r) = changed loc + length (tape_writes_of "tob" (snd r)).
Proof.
  induction want as [|x want IH]; intros loc; cbv zeta; [cbn; lia|].
  rewrite for_market_id_in_cons. cbn [fst snd].
  rewrite book_events_app, tape_writes_of_app, !length_app.
  destruct (IH (fst (loop_body now by_id loc x))) as [-> ->].
  unfold loop_body. destruct (by_id !! x) as [m|]; [|cbn; lia].
  destruct (negb _); [cbn; lia|].
  rewrite observe_market_book, observe_market_tob.
  unfold observe_market. cbn [fst observed changed].
  destruct (pair_ne _ _); cbn [length]; lia.
Qed.

Lemma for_market_id_in_none_found now by_id : forall want loc,
  forallb (fun market_id => negb (found by_id market_id)) want = true ->
  for_market_id_in now by_id loc want = (loc, []).
Proof.
  induction want as [|x want IH]; intros loc Hnone; [reflexivity|].
  cbn [forallb] in Hnone. apply andb_true_iff in Hnone as [Hx Hrest].
  rewrite for_market_id_in_cons. unfold found in Hx.
  destruct (by_id !! x) eqn:Hl; [discriminate|].
  rewrite (loop_body_absent _ _ _ _ Hl). cbn [fst snd app].
  now rewrite (IH loc Hrest).
Qed.

Lemma for_market_id_in_tob_le_books now by_id : forall want loc,
  let r := for_market_id_in now by_id loc want in
  length (tape_writes_of "tob" (snd r)) <= length (book_events (snd r))
  /\ length (book_events (snd r)) <= length want.
Proof.
  induction want as [|x want IH]; intros loc; cbv zeta; [cbn; lia|].
  rewrite for_market_id_in_cons. cbn [fst snd].
  rewrite book_events_app, tape_writes_of_app, !length_app.
  remember (fst (loop_body now by_id loc x)) as loc' eqn:Hloc'. clear Hloc'.
  destruct (IH loc') as [H1 H2].
  set (a := length (tape_writes_of "tob" (snd (for_market_id_in now by_id loc' want)))) in *.
  set (b := length (book_events (snd (for_market_id_in now by_id loc' want)))) in *.
  unfold loop_body. destruct (by_id !! x) as [m|]; [|cbn; lia].
  destruct (negb _); [cbn; lia|].
  rewrite observe_market_book, observe_market_tob.
  destruct (pair_ne _ _); cbn [length]; lia.
Qed.

Lemma for_market_id_in_no_status now by_id want loc :
  status_upserts (snd (for_market_id_in now by_id loc want)) = [].
Proof.
  pose proof (for_market_id_in_about now by_id want loc) as Habout.
  induction Habout as [|e fx (y & _ & _ & He) _ IH]; [reflexivity|].
  unfold status_upserts in *. cbn [List.filter]. now destruct e.
Qed.

Section Turns.

Variable py_repr : pyval -> string.

(** X3.  A provider that returns nothing, an empty list, or only ids that
    are blank once converted to text, makes the turn a no-op whatever the
    fetch would have done: nothing is fetched, reported or changed, and the
    run is the run without that turn.  Every id that is looked up has a
    character that is not white space. *)
Theorem blank_request_is_a_no_op st ids outcome now ts rest :
  forallb (fun x => negb (strip_nonempty (py_str py_repr x))) (default [] ids) = true ->
  want_of py_repr ids = []
  /\ cycle py_repr st (mkCycle (inr ids) outcome now ts) = Continue st []
  /\ events py_repr st (mkCycle (inr ids) outcome now ts :: rest)
     = events py_repr st rest
  /\ (forall ids' market_id,
        In market_id (want_of py_repr ids') -> strip_nonempty market_id = true).
Proof.
  intros Hblank.
  assert (Hwant : want_of py_repr ids = []).
  { unfold want_of. induction (default [] ids) as [|x l IH]; [reflexivity|].
    cbn [forallb] in Hblank. apply andb_true_iff in Hblank as [Hx Hl].
    cbn [map List.filter]. apply negb_true_iff in Hx. rewrite Hx. now apply IH. }
  assert (Hc : cycle py_repr st (mkCycle (inr ids) outcome now ts) = Continue st []).
  { unfold cycle. cbn [provided]. now rewrite Hwant. }
  split; [exact Hwant|]. split; [exact Hc|]. split.
  - cbn [events]. rewrite Hc. cbn [app]. now destruct (events py_repr st rest).
  - intros ids' market_id Hin. unfold want_of in Hin.
    now apply List.filter_In in Hin.
Qed.

Lemma fold_by_id_sound l : forall by_id k d,
  fold_left (by_id_step py_repr) l by_id !! k = Some d ->
  by_id !! k = Some d
  \/ (In (PDict d) l /\ dict_get d "id" <> PNone
      /\ py_str py_repr (dict_get d "id") = k).
Proof.
  induction l as [|m l IH]; intros by_id k d Hk; [now left|].
  cbn [fold_left] in Hk. destruct (IH _ _ _ Hk) as [Hstep|(Hin & Hid & Hkey)].
  - destruct m as [| | | | | |d']; try (now left).
    unfold by_id_step in Hstep.
    assert (Hins : dict_get d' "id" <> PNone ->
              <[py_str py_repr (dict_get d' "id") := d']> by_id !! k = Some d ->
              by_id !! k = Some d
              \/ (In (PDict d) (PDict d' :: l) /\ dict_get d "id" <> PNone
                  /\ py_str py_repr (dict_get d "id") = k)).
    { intros Hid Hlk.
      destruct (decide (py_str py_repr (dict_get d' "id") = k)) as [Hkey|Hne].
      - rewrite Hkey, lookup_insert_eq in Hlk. injection Hlk as ->.
        right. repeat split; [now left|exact Hid|exact Hkey].
      - rewrite lookup_insert_ne in Hlk by exact Hne. now left. }
    destruct (dict_get d' "id") eqn:Hid'; try (now left);
      apply Hins; try discriminate; exact Hstep.
  - right. repeat split; [now right|exact Hid|exact Hkey].
Qed.

Lemma fold_by_id_keeps l : forall by_id k,
  is_Some (by_id !! k) -> is_Some (fold_left (by_id_step py_repr) l by_id !! k).
Proof.
  induction l as [|m l IH]; intros by_id k Hk; [exact Hk|].
  cbn [fold_left]. apply IH. destruct m as [| | | | | |d']; try exact Hk.
  unfold by_id_step.
  assert (Hins : is_Some (<[py_str py_repr (dict_get d' "id") := d']> by_id !! k)).
  { destruct (decide (py_str py_repr (dict_get d' "id") = k)) as [<-|Hne].
    - rewrite lookup_insert_eq. eauto.
    - now rewrite lookup_insert_ne. }
  destruct (dict_get d' "id"); try exact Hk; exact Hins.
Qed.

Lemma by_id_step_identified by_id d :
  dict_get d "id" <> PNone ->
  by_id_step py_repr by_id (PDict d)
  = <[py_str py_repr (dict_get d "id") := d]> by_id.
Proof.
  intros Hid. unfold by_id_step. now destruct (dict_get d "id").
Qed.

Lemma fold_by_id_last l : forall by_id k d,
  by_id !! k = Some d ->
  Forall (fun m => match m with
                   | PDict d' =>
                       dict_get d' "id" = PNone
                       \/ py_str py_repr (dict_get d' "id") <> k
                   | _ => True
                   end) l ->
  fold_left (by_id_step py_repr) l by_id !! k = Some d.
Proof.
  induction l as [|m l IH]; intros by_id k d Hk Hl; [exact Hk|].
  inversion Hl as [|? ? Hm Hrest]; subst. cbn [fold_left]. apply IH; [|exact Hrest].
  destruct m as [| | | | | |d']; try exact Hk.
  destruct Hm as [Hnone|Hne].
  - unfold by_id_step. now rewrite Hnone.
  - unfold by_id_step.
    destruct (dict_get d' "id"); try exact Hk; now rewrite lookup_insert_ne.
Qed.

(** X4.  The lookup built from the fetched document holds, under the text
    of its id, the last record of the document with that id: every entry is
    a record of the document stored under its own id, every record with an
    id that is not null has its id in the lookup, a record no later record
    shares its id with is the one stored, and a document that is not a list
    gives the empty lookup. *)
Theorem lookup_holds_last_record_of_each_id data :
  (forall k d,
     build_by_id py_repr data !! k = Some d ->
     exists l, data = PList l /\ In (PDict d) l /\ dict_get d "id" <> PNone
               /\ py_str py_repr (dict_get d "id") = k)
  /\ (forall l d,
        data = PList l -> In (PDict d) l -> dict_get d "id" <> PNone ->
        is_Some (build_by_id py_repr data !! py_str py_repr (dict_get d "id")))
  /\ (forall before d after,
        data = PList (before ++ PDict d :: after) ->
        dict_get d "id" <> PNone ->
        Forall (fun m => match m with
                         | PDict d' =>
                             dict_get d' "id" = PNone
                             \/ py_str py_repr (dict_get d' "id")
                                <> py_str py_repr (dict_get d "id")
                         | _ => True
                         end) after ->
        build_by_id py_repr data !! py_str py_repr (dict_get d "id") = Some d)
  /\ (match data with PList _ => False | _ => True end ->
      build_by_id py_repr data = ∅).
Proof.
  split; [|split; [|split]].
  - intros k d Hk. destruct data as [| | | | |l|]; cbn [build_by_id] in Hk;
      try (now rewrite lookup_empty in Hk).
    exists l. split; [reflexivity|].
    destruct (fold_by_id_sound _ _ _ _ Hk) as [He|H]; [|exact H].
    now rewrite lookup_empty in He.
  - intros l d -> Hin Hid. apply in_split in Hin as (l1 & l2 & ->).
    cbn [build_by_id]. rewrite fold_left_app. cbn [fold_left].
    apply fold_by_id_keeps. rewrite (by_id_step_identified _ _ Hid), lookup_insert_eq.
    eauto.
  - intros before d after -> Hid Hafter. cbn [build_by_id].
    rewrite fold_left_app. cbn [fold_left]. apply fold_by_id_last; [|exact Hafter].
    now rewrite (by_id_step_identified _ _ Hid), lookup_insert_eq.
  - now destruct data.
Qed.

(** X5.  A turn in which no requested market is found, be it because the
    fetched document is not a list (an error object, say) or because it
    lists none of them, is reported as a success: the one effect is the
    status "ok" with both counters at 0, and the stream is left as it was. *)
Theorem nothing_found_reports_ok st ids data now ts :
  want_of py_repr ids <> [] ->
  match data with PList _ => False | _ => True end
  \/ forallb (fun market_id => negb (found (build_by_id py_repr data) market_id))
        (want_of py_repr ids) = true ->
  cycle py_repr st (mkCycle (inr ids) (inr data) now ts)
  = Continue st
      [upsert_runtime_status "feed.gamma" "ok"
         "gamma polling ok (observed 0, changed 0)"
         ("poll_secs=" ++ py_repr (PFloat (_poll st))
            ++ " limit=" ++ pretty (_limit st)
            ++ " want=" ++ pretty (length (want_of py_repr ids)))%string
         ts].
Proof.
  intros Hwant Hnone.
  assert (Hloop : forall loc,
            for_market_id_in now (build_by_id py_repr data) loc (want_of py_repr ids)
            = (loc, [])).
  { intros loc. apply for_market_id_in_none_found. destruct Hnone as [Hroot|Hall];
      [|exact Hall].
    replace (build_by_id py_repr data) with (∅ : gmap string (gmap string pyval))
      by (now destruct data).
    clear. induction (want_of py_repr ids) as [|x l IH]; [reflexivity|].
    cbn [forallb]. unfold found at 1. now rewrite lookup_empty. }
  rewrite cycle_fetched. cbv zeta. rewrite Hloop. cbn [fst snd self app].
  destruct (want_of py_repr ids); [contradiction|reflexivity].
Qed.

(** X6.  The status a successful turn reports counts its trace: "observed"
    is the number of [BookEvent]s yielded, which is the number of requested
    entries found, "changed" is the number of "tob" rows written, which is
    at most "observed", and "want" is the length of the request; it is the
    only status of the turn and its last effect. *)
Theorem ok_status_counts_the_trace st ids data now ts :
  want_of py_repr ids <> [] ->
  exists st' fx,
    cycle py_repr st (mkCycle (inr ids) (inr data) now ts)
    = Continue st'
        (fx ++ [upsert_runtime_status "feed.gamma" "ok"
                  ("gamma polling ok (observed " ++ pretty (length (book_events fx))
                     ++ ", changed " ++ pretty (length (tape_writes_of "tob" fx))
                     ++ ")")%string
                  ("poll_secs=" ++ py_repr (PFloat (_poll st))
                     ++ " limit=" ++ pretty (_limit st)
                     ++ " want=" ++ pretty (length (want_of py_repr ids)))%string
                  ts])
    /\ status_upserts fx = []
    /\ length (book_events fx)
       = length (List.filter (found (build_by_id py_repr data)) (want_of py_repr ids))
    /\ length (tape_writes_of "tob" fx) <= length (book_events fx)
    /\ length (book_events fx) <= length (want_of py_repr ids).
Proof.
  intros Hwant. rewrite cycle_fetched. cbv zeta.
  set (want := want_of py_repr ids) in *.
  set (by_id := build_by_id py_repr data).
  set (r := for_market_id_in now by_id (mkLocals st 0 0) want).
  destruct (for_market_id_in_counts now by_id want (mkLocals st 0 0)) as [Ho Hc].
  destruct (for_market_id_in_config now by_id want (mkLocals st 0 0)) as (_ & Hp & Hl).
  destruct (for_market_id_in_tob_le_books now by_id want (mkLocals st 0 0)) as [H1 H2].
  fold r in Ho, Hc, Hp, Hl, H1, H2. cbn [observed changed self] in Ho, Hc, Hp, Hl.
  exists (self (fst r)), (snd r). split; [|split; [|split; [|split]]].
  - destruct want; [contradiction|]. unfold ok_status.
    now rewrite Ho, Hc, Hp, Hl.
  - apply for_market_id_in_no_status.
  - rewrite <- (for_market_id_in_books now by_id (build_by_id_truthy py_repr data)
                  want (mkLocals st 0 0)).
    now rewrite length_map.
  - exact H1.
  - exact H2.
Qed.

End Turns.

(** ** The shape of a trace *)

Lemma journaled_app fx1 fx2 :
  journaled fx1 -> journaled fx2 -> journaled (fx1 ++ fx2).
Proof.
  intros H1 H2. induction H1; cbn [app]; try (constructor; assumption). exact H2.
Qed.

Lemma observe_market_journaled now m loc market_id :
  journaled (snd (observe_market now m loc market_id)).
Proof.
  observe_cases m; cbn [app];
    repeat first
      [ apply journaled_nil
      | apply journaled_book
      | refine (journaled_tob _ (TopOfBook.mk _ _ _ _ _) _ _)
      | refine (journaled_trade _ (TradeTick.mk _ _ _ _ _) _ _) ].
Qed.

Lemma loop_body_journaled now by_id loc market_id :
  journaled (snd (loop_body now by_id loc market_id)).
Proof.
  unfold loop_body. destruct (by_id !! market_id) as [m|]; [|constructor].
  destruct (negb _); [constructor|]. apply observe_market_journaled.
Qed.

Lemma for_market_id_in_journaled now by_id : forall want loc,
  journaled (snd (for_market_id_in now by_id loc want)).
Proof.
  induction want as [|x want IH]; intros loc; [constructor|].
  rewrite for_market_id_in_cons. cbn [snd].
  apply journaled_app; [apply loop_body_journaled|apply IH].
Qed.

Lemma trade_events_app fx1 fx2 :
  trade_events (fx1 ++ fx2) = trade_events fx1 ++ trade_events fx2.
Proof. unfold trade_events. now rewrite yielded_app, List.filter_app. Qed.

Lemma journaled_counts fx :
  journaled fx ->
  length (tape_writes_of "trade" fx) = length (trade_events fx)
  /\ length (tape_writes_of "tob" fx) <= length (book_events fx)
  /\ length (tape_writes fx) <= length (yielded fx).
Proof.
  induction 1 as [|kind k tob rest _ IH|k tob rest _ IH|k trade rest _ IH
                  |c l msg d ts rest _ IH|event rest _ IH];
    [cbn; lia|..];
    destruct IH as (I1 & I2 & I3);
    match goal with
    | |- context [?a :: ?b :: rest] => change (a :: b :: rest) with ([a; b] ++ rest)
    | |- context [?a :: rest] => change (a :: rest) with ([a] ++ rest)
    end;
    rewrite !tape_writes_of_app, !book_events_app, !trade_events_app, yielded_app,
      tape_writes_app, !length_app;
    set (x1 := length (tape_writes_of "trade" rest)) in *;
    set (x2 := length (trade_events rest)) in *;
    set (x3 := length (tape_writes_of "tob" rest)) in *;
    set (x4 := length (book_events rest)) in *;
    set (x5 := length (tape_writes rest)) in *;
    set (x6 := length (yielded rest)) in *;
    cbn; lia.
Qed.

Lemma observe_market_stamped now m loc market_id :
  Forall (stamped now) (snd (observe_market now m loc market_id)).
Proof. observe_cases m; repeat constructor. Qed.

Lemma for_market_id_in_stamped now by_id : forall want loc,
  Forall (stamped now) (snd (for_market_id_in now by_id loc want)).
Proof.
  induction want as [|x want IH]; intros loc; [constructor|].
  rewrite for_market_id_in_cons. cbn [snd]. apply Forall_app. split; [|apply IH].
  unfold loop_body. destruct (by_id !! x) as [m|]; [|constructor].
  destruct (negb _); [constructor|]. apply observe_market_stamped.
Qed.

(** ** What the stream remembers after a turn *)

Lemma loop_state now by_id want loc market_id :
  all_truthy by_id ->
  let st' := self (fst (for_market_id_in now by_id loc want)) in
  _last st' !! market_id
  = match observed_record by_id want market_id with
    | Some m => Some (cur_of m)
    | None => _last (self loc) !! market_id
    end
  /\ _last_trade_px st' !! market_id
     = match observed_record by_id want market_id with
       | Some m => Some (parse_last_trade_px m)
       | None => _last_trade_px (self loc) !! market_id
       end.
Proof.
  intros Hall. cbv zeta. unfold observed_record.
  destruct (in_dec string_dec market_id want) as [Hin|Hout].
  - destruct (by_id !! market_id) as [m|] eqn:Hm.
    + exact (loop_remembers now by_id Hall want loc market_id m Hin Hm).
    + exact (for_market_id_in_frame now by_id market_id want loc (or_intror Hm)).
  - exact (for_market_id_in_frame now by_id market_id want loc (or_introl Hout)).
Qed.

(** ** The first poll *)

Lemma first_pass now by_id :
  all_truthy by_id ->
  forall want loc,
    NoDup want ->
    (forall market_id, In market_id want ->
       _last (self loc) !! market_id = None
       /\ _last_trade_px (self loc) !! market_id = None) ->
    let fx := snd (for_market_id_in now by_id loc want) in
    length (tape_writes_of "tob" fx) = length (book_events fx)
    /\ length (trade_events fx) = length (List.filter (quotes_last_trade by_id) want).
Proof.
  intros Hall. induction want as [|x want IH]; intros loc Hnd Hnew; cbv zeta;
    [now split|].
  apply NoDup_cons in Hnd as [Hx Hnd].
  rewrite for_market_id_in_cons. cbn [snd].
  rewrite tape_writes_of_app, book_events_app, trade_events_app, !length_app.
  assert (Hnew' : forall k, In k want ->
            _last (self (fst (loop_body now by_id loc x))) !! k = None
            /\ _last_trade_px (self (fst (loop_body now by_id loc x))) !! k = None).
  { intros k Hk.
    assert (Hne : k <> x) by (intros ->; apply Hx; now apply list_elem_of_In).
    destruct (loop_body_frame now by_id loc x k Hne) as [-> ->].
    apply Hnew. now right. }
  destruct (IH (fst (loop_body now by_id loc x)) Hnd Hnew') as [-> ->].
  destruct (Hnew x (or_introl eq_refl)) as [Hq Ht].
  cbn [List.filter]. unfold quotes_last_trade at 2.
  destruct (by_id !! x) as [m|] eqn:Hm.
  - rewrite (loop_body_found _ _ _ _ _ Hm (Hall _ _ Hm)).
    rewrite observe_market_tob, observe_market_book, Hq.
    destruct (observe_market_trade now m loc x) as [-> _]. rewrite Ht.
    cbn [pair_ne length]. split; [reflexivity|].
    now destruct (parse_last_trade_px m).
  - rewrite (loop_body_absent _ _ _ _ Hm). now split.
Qed.

Section Runs.

Variable py_repr : pyval -> string.

Lemma cycle_journaled st c : journaled (outcome_trace (cycle py_repr st c)).
Proof.
  unfold cycle. destruct (provided c) as [e|ids]; [constructor|].
  destruct (want_of py_repr ids) as [|x want]; [constructor|].
  unfold try_block. destruct (fetched c) as [e|data]; cbn [except_Exception outcome_trace app].
  - repeat constructor.
  - apply journaled_app; [apply for_market_id_in_journaled|repeat constructor].
Qed.

Lemma cycle_stamped st c : Forall (stamped (now c)) (outcome_trace (cycle py_repr st c)).
Proof.
  unfold cycle. destruct (provided c) as [e|ids]; [constructor|].
  destruct (want_of py_repr ids) as [|x want]; [constructor|].
  unfold try_block. destruct (fetched c) as [e|data]; cbn [except_Exception outcome_trace app].
  - repeat constructor.
  - apply Forall_app. split; [apply for_market_id_in_stamped|repeat constructor].
Qed.

Lemma events_cons st c rest :
  events py_repr st (c :: rest)
  = match cycle py_repr st c with
    | Continue st' fx =>
        mkRun (final (events py_repr st' rest)) (fx ++ done (events py_repr st' rest))
              (raised (events py_repr st' rest))
    | Propagate e fx => mkRun st fx (Some e)
    end.
Proof. reflexivity. Qed.

(** X7.  Over any run, the tape and the events agree: a tape row is only
    ever written immediately before the event it records is yielded, with
    that event's market, kind, time and content; no trade print is yielded
    without its row.  So there are as many "trade" rows as [TradeEvent]s, at
    most as many "tob" rows as [BookEvent]s, and never more rows than
    events. *)
Theorem tape_rows_precede_their_events st cs :
  let fx := done (events py_repr st cs) in
  journaled fx
  /\ length (tape_writes_of "trade" fx) = length (trade_events fx)
  /\ length (tape_writes_of "tob" fx) <= length (book_events fx)
  /\ length (tape_writes fx) <= length (yielded fx).
Proof.
  cbv zeta.
  assert (H : journaled (done (events py_repr st cs))).
  { revert st. induction cs as [|c cs IH]; intros st; [constructor|].
    rewrite events_cons. pose proof (cycle_journaled st c) as Hc.
    destruct (cycle py_repr st c) as [st' fx|e fx]; cbn [done outcome_trace] in *.
    - apply journaled_app; [exact Hc|apply IH].
    - exact Hc. }
  split; [exact H|]. now apply journaled_counts.
Qed.

(** X8.  Whatever a turn yields or writes carries the one reading of the
    clock made after the fetch: every event and every tape row of the turn
    has that time, whichever market it is about.  Book events are of kind
    "tob" with no sizes; trade events are of kind "trade", of size 1.0, and
    name the market they are yielded for. *)
Theorem turn_effects_share_one_timestamp st c :
  Forall (stamped (now c)) (outcome_trace (cycle py_repr st c))
  /\ (forall e, In e (outcome_trace (cycle py_repr st c)) ->
        match e with
        | insert_tape ts _ _ _ => ts = now c
        | Yield (BookEvent _ _ tob) => TopOfBook.ts tob = now c
        | Yield (TradeEvent _ _ trade) => TradeTick.ts trade = now c
        | _ => True
        end).
Proof.
  pose proof (cycle_stamped st c) as H. split; [exact H|].
  intros e He. rewrite List.Forall_forall in H. specialize (H e He).
  destruct e as [[kind k tob|kind k trade]| | |]; cbn [stamped] in H; tauto.
Qed.

(** X9.  After a turn that fetched, the stream remembers, for every market
    requested and in the lookup, what that market's record parses to (the
    pair of bid and ask, and the last-trade price, absent ones included),
    and for every other market what it remembered before.  Hence a second
    turn on the same request and document leaves the stream as the first
    left it. *)
Theorem turn_remembers_what_it_observed st ids data now ts :
  let by_id := build_by_id py_repr data in
  let want := want_of py_repr ids in
  exists st1 fx1,
    cycle py_repr st (mkCycle (inr ids) (inr data) now ts) = Continue st1 fx1
    /\ (forall market_id,
          _last st1 !! market_id
          = match observed_record by_id want market_id with
            | Some m => Some (cur_of m)
            | None => _last st !! market_id
            end)
    /\ (forall market_id,
          _last_trade_px st1 !! market_id
          = match observed_record by_id want market_id with
            | Some m => Some (parse_last_trade_px m)
            | None => _last_trade_px st !! market_id
            end)
    /\ (forall now' ts', exists fx2,
          cycle py_repr st1 (mkCycle (inr ids) (inr data) now' ts') = Continue st1 fx2)
    /\ (forall m, pair_values (cur_of m) = (parse_best_bid m, parse_best_ask m)).
Proof.
  cbv zeta. rewrite cycle_fetched. cbv zeta.
  set (by_id := build_by_id py_repr data). set (want := want_of py_repr ids).
  pose proof (build_by_id_truthy py_repr data) as Hall. fold by_id in Hall.
  set (st1 := self (fst (for_market_id_in now by_id (mkLocals st 0 0) want))).
  assert (H1 : forall k,
            _last st1 !! k
            = match observed_record by_id want k with
              | Some m => Some (cur_of m)
              | None => _last st !! k
              end).
  { intros k. apply (loop_state now by_id want (mkLocals st 0 0) k Hall). }
  assert (H2 : forall k,
            _last_trade_px st1 !! k
            = match observed_record by_id want k with
              | Some m => Some (parse_last_trade_px m)
              | None => _last_trade_px st !! k
              end).
  { intros k. apply (loop_state now by_id want (mkLocals st 0 0) k Hall). }
  eexists _, _. split; [reflexivity|]. split; [exact H1|]. split; [exact H2|].
  split; [|exact cur_of_values].
  intros now' ts'. rewrite cycle_fetched. cbv zeta. fold by_id want.
  set (st2 := self (fst (for_market_id_in now' by_id (mkLocals st1 0 0) want))).
  assert (Hst : st2 = st1).
  { destruct (for_market_id_in_config now' by_id want (mkLocals st1 0 0))
      as (Hb & Hp & Hl).
    cbn [self] in Hb, Hp, Hl. fold st2 in Hb, Hp, Hl.
    assert (Hlast : _last st2 = _last st1).
    { apply map_eq. intros k. unfold st2.
      rewrite (proj1 (loop_state now' by_id want (mkLocals st1 0 0) k Hall)).
      cbn [self]. rewrite (H1 k). now destruct (observed_record by_id want k). }
    assert (Htrade : _last_trade_px st2 = _last_trade_px st1).
    { apply map_eq. intros k. unfold st2.
      rewrite (proj2 (loop_state now' by_id want (mkLocals st1 0 0) k Hall)).
      cbn [self]. rewrite (H2 k). now destruct (observed_record by_id want k). }
    destruct st2, st1. cbn in *. congruence. }
  rewrite Hst. eexists. reflexivity.
Qed.

(** ** The generator over a run *)

Lemma events_app : forall cs1 st cs2,
  events py_repr st (cs1 ++ cs2)
  = let r1 := events py_repr st cs1 in
    match raised r1 with
    | Some _ => r1
    | None =>
        let r2 := events py_repr (final r1) cs2 in
        mkRun (final r2) (done r1 ++ done r2) (raised r2)
    end.
Proof.
  induction cs1 as [|c cs1 IH]; intros st cs2; cbv zeta.
  - cbn [app events raised final done]. now destruct (events py_repr st cs2).
  - cbn [app]. rewrite !events_cons.
    destruct (cycle py_repr st c) as [st' fx|e fx]; [|reflexivity].
    rewrite IH. cbv zeta. cbn [raised final done].
    destruct (raised (events py_repr st' cs1)) eqn:Hr;
      cbn [raised final done]; rewrite ?Hr; [reflexivity|].
    now rewrite app_assoc.
Qed.

(** X10.  An exception that [market_ids_provider()] raises is not caught:
    it ends the generator in that turn, before anything is fetched, yielded,
    written or reported in it.  What the turns before it did stands, and no
    later turn runs.  A run that has not ended goes on from the stream it
    has reached. *)
Theorem provider_failure_ends_the_generator st cs1 :
  (forall e outcome now ts,
     cycle py_repr st (mkCycle (inl e) outcome now ts) = Propagate e [])
  /\ (raised (events py_repr st cs1) = None ->
      (forall e outcome now ts cs2,
         events py_repr st (cs1 ++ mkCycle (inl e) outcome now ts :: cs2)
         = mkRun (final (events py_repr st cs1)) (done (events py_repr st cs1)) (Some e))
      /\ (forall cs2,
            events py_repr st (cs1 ++ cs2)
            = mkRun (final (events py_repr (final (events py_repr st cs1)) cs2))
                    (done (events py_repr st cs1)
                       ++ done (events py_repr (final (events py_repr st cs1)) cs2))
                    (raised (events py_repr (final (events py_repr st cs1)) cs2))))
  /\ (forall e,
        raised (events py_repr st cs1) = Some e ->
        forall cs2, events py_repr st (cs1 ++ cs2) = events py_repr st cs1).
Proof.
  split; [reflexivity|]. split.
  - intros Hgoes. split.
    + intros e outcome now ts cs2. rewrite events_app. cbv zeta. rewrite Hgoes.
      rewrite events_cons. unfold cycle. cbn [provided final done raised].
      now rewrite app_nil_r.
    + intros cs2. rewrite events_app. cbv zeta. now rewrite Hgoes.
  - intros e Hends cs2. rewrite events_app. cbv zeta. now rewrite Hends.
Qed.

(** X11.  The first turn of a stream as [__init__] leaves it, on a request
    that names no market twice, records everything it observes: it writes a
    "tob" row for every [BookEvent] it yields, and yields a [TradeEvent] for
    every requested market whose record parses to a last-trade price. *)
Theorem first_poll_records_every_market base_url poll_secs limit ids data now ts :
  NoDup (want_of py_repr ids) ->
  let by_id := build_by_id py_repr data in
  exists st' fx,
    cycle py_repr (__init__ base_url poll_secs limit) (mkCycle (inr ids) (inr data) now ts)
    = Continue st' fx
    /\ length (tape_writes_of "tob" fx) = length (book_events fx)
    /\ length (trade_events fx)
       = length (List.filter (quotes_last_trade by_id) (want_of py_repr ids)).
Proof.
  intros Hnd. cbv zeta. rewrite cycle_fetched. cbv zeta.
  eexists _, _. split; [reflexivity|].
  rewrite tape_writes_of_app, book_events_app, trade_events_app, !length_app.
  destruct (first_pass now (build_by_id py_repr data) (build_by_id_truthy py_repr data)
              (want_of py_repr ids) (mkLocals (__init__ base_url poll_secs limit) 0 0) Hnd)
    as [-> ->].
  { intros k _. cbn [self __init__ _last _last_trade_px]. now rewrite !lookup_empty. }
  destruct (want_of py_repr ids); cbn; lia.
Qed.

End Runs.

(** ** Worked runs *)

Import samples.

Lemma blank_request_is_a_no_op_witness :
  want_of any_repr blank_ids = []
  /\ cycle any_repr stream0 (mkCycle (inr blank_ids) (inr snapshot) 1 2)
     = Continue stream0 [].
Proof.
  destruct (blank_request_is_a_no_op any_repr stream0 blank_ids (inr snapshot) 1 2 []
              ltac:(now vm_compute)) as (Hwant & Hcycle & _).
  split; [exact Hwant|exact Hcycle].
Defined.

Lemma nothing_found_reports_ok_witness :
  cycle any_repr stream0 (mkCycle (inr requested) (inr error_document) 1 2)
  = Continue stream0
      [upsert_runtime_status "feed.gamma" "ok" "gamma polling ok (observed 0, changed 0)"
         "poll_secs=? limit=500 want=3" 2].
Proof.
  apply (nothing_found_reports_ok any_repr stream0 requested error_document 1 2).
  - now vm_compute.
  - left. exact I.
Defined.

Lemma ok_status_counts_the_trace_witness :
  exists st' fx,
    cycle any_repr stream0 (turn 1)
    = Continue st'
        (fx ++ [upsert_runtime_status "feed.gamma" "ok"
                  ("gamma polling ok (observed " ++ pretty (length (book_events fx))
                     ++ ", changed " ++ pretty (length (tape_writes_of "tob" fx))
                     ++ ")")%string
                  "poll_secs=? limit=500 want=3" (1 + 0.5)])
    /\ length (book_events fx) = 2.
Proof.
  destruct (ok_status_counts_the_trace any_repr stream0 requested snapshot 1 (1 + 0.5)
              ltac:(now vm_compute)) as (st' & fx & Hc & _ & Hb & _).
  exists st', fx. split; [exact Hc|]. rewrite Hb. now vm_compute.
Defined.

Lemma first_poll_records_every_market_witness :
  exists st' fx,
    cycle any_repr stream0 (turn 1) = Continue st' fx
    /\ length (tape_writes_of "tob" fx) = length (book_events fx)
    /\ length (trade_events fx) = 2.
Proof.
  destruct (first_poll_records_every_market any_repr
              "https://gamma-api.polymarket.com/" 1 500 requested snapshot 1 (1 + 0.5))
    as (st' & fx & Hc & Ht & Htr).
  { apply (bool_decide_unpack _). now vm_compute. }
  exists st', fx. split; [exact Hc|]. split; [exact Ht|].
  rewrite Htr. now vm_compute.
Defined.

End gamma_poll_stream_more_facts.


(** * A session with the shadow broker *)

Module execution_more_facts.
Import execution execution_spec broker_session.
Import execution_facts.

Section Session.

Context {Fill : Type}.

Lemma run_cons (self : ShadowBroker) w c rest :
  run (Fill := Fill) self w (c :: rest)
  = match c with
    | call_place_limit amb req =>
        let r := ShadowBroker_place_limit self amb w req in
        let s := run (Fill := Fill) self (snd r) rest in
        (fst (fst s), fst r :: snd (fst s), snd s)
    | call_cancel order_id =>
        run (Fill := Fill) self (ShadowBroker_cancel self w order_id) rest
    | call_cancel_all_market market_id =>
        run (Fill := Fill) self (ShadowBroker_cancel_all_market self w market_id) rest
    | call_on_book _ _ | call_on_trade _ _ => run (Fill := Fill) self w rest
    end.
Proof.
  destruct c; cbn [run place_limit cancel cancel_all_market on_book on_trade
                   ShadowBroker_Broker ShadowBroker_on_book ShadowBroker_on_trade
                   fst snd app]; cbv zeta;
    try reflexivity;
    now destruct (run _ _ rest) as [[w' orders] fills].
Qed.

End Session.

(** X12.  Whatever calls are made on a shadow broker, in whatever order:
    no fill is ever returned; every placement, and nothing else, persists
    one order record, in call order, for the rejected order it returned;
    each record has a metadata dict of its own, allocated during the session
    and still marked "shadow" at its end; and every dict that existed before
    the session is unchanged after it.  Cancels and market data leave no
    record. *)
Theorem shadow_session_only_records_placements (Fill : Type) (self : ShadowBroker)
    (w : World) (calls : list Call) :
  let r := run (Fill := Fill) self w calls in
  let w' := fst (fst r) in
  let orders := snd (fst r) in
  snd r = []
  /\ length orders = length (List.filter is_place_limit calls)
  /\ Forall (fun o => Order.status o = "rejected" /\ Order.filled_size o = 0%float) orders
  /\ (forall l d, heap w !! l = Some d -> heap w' !! l = Some d)
  /\ exists later,
       trace w' = trace w ++ later
       /\ omap insert_row later = orders
       /\ NoDup (omap insert_meta later)
       /\ Forall (fun l => heap w !! l = None
                           /\ exists items,
                                heap w' !! l = Some items
                                /\ items !! "execution_mode" = Some (PStr "shadow"))
                 (omap insert_meta later).
Proof.
  revert w. induction calls as [|c calls IH]; intros w; cbv zeta.
  - cbn [run fst snd length List.filter]. repeat split; [constructor|auto|].
    exists []. rewrite app_nil_r. repeat split; constructor.
  - rewrite run_cons. destruct c as [amb req|order_id|market_id|market_id tob|market_id trade].
    + cbv zeta. rewrite place_limit_unfold. cbv zeta. cbn [fst snd].
      set (meta := fresh (dom (heap w))).
      set (tagged := <["execution_mode" := PStr "shadow"]> (request_meta_items (heap w) req)).
      set (o := Order.mk _ _ _ _ _ _ _ _).
      set (w1 := mkWorld _ _).
      assert (Hfresh : heap w !! meta = None) by apply not_elem_of_dom, is_fresh.
      destruct (IH w1) as (Hf & Hlen & Hrej & Hkeep & later & Htr & Hrows & Hnd & Hmetas).
      cbv zeta in Hf, Hlen, Hrej, Hkeep, Htr, Hrows, Hmetas.
      set (s := run self w1 calls) in *.
      assert (Hmeta : heap (fst (fst s)) !! meta = Some tagged).
      { apply Hkeep. unfold w1. cbn [heap]. apply lookup_insert_eq. }
      split; [exact Hf|]. split; [cbn [List.filter is_place_limit length]; now rewrite Hlen|].
      split; [constructor; [now split|exact Hrej]|]. split.
      { intros l d Hl. apply Hkeep. unfold w1. cbn [heap].
        rewrite lookup_insert_ne; [exact Hl|]. intros Heq. rewrite Heq, Hl in Hfresh.
        discriminate. }
      eexists (_ :: _ :: later). split.
      { rewrite Htr. unfold w1. cbn [trace]. rewrite <- app_assoc. reflexivity. }
      cbn [omap list_omap insert_row insert_meta]. split; [now rewrite Hrows|]. split.
      { apply NoDup_cons. split; [|exact Hnd]. intros Hin.
        rewrite Forall_forall in Hmetas. destruct (Hmetas meta Hin) as [Hnone _].
        unfold w1 in Hnone. cbn [heap] in Hnone. now rewrite lookup_insert_eq in Hnone. }
      constructor.
      { split; [exact Hfresh|]. exists tagged. split; [exact Hmeta|].
        apply lookup_insert_eq. }
      eapply Forall_impl; [exact Hmetas|]. intros l [Hnone Hitems]. split; [|exact Hitems].
      unfold w1 in Hnone. cbn [heap] in Hnone.
      now apply lookup_insert_None in Hnone as [Hnone _].
    + destruct (IH (ShadowBroker_cancel self w order_id))
        as (Hf & Hlen & Hrej & Hkeep & later & Htr & Hrows & Hnd & Hmetas).
      cbv zeta in Hf, Hlen, Hrej, Hkeep, Htr, Hrows, Hmetas.
      split; [exact Hf|]. split; [exact Hlen|]. split; [exact Hrej|].
      split; [exact Hkeep|]. eexists (_ :: later). split.
      { rewrite Htr. unfold ShadowBroker_cancel, emit. cbn [trace].
        rewrite <- app_assoc. reflexivity. }
      cbn [omap list_omap insert_row insert_meta]. now repeat split.
    + destruct (IH (ShadowBroker_cancel_all_market self w market_id))
        as (Hf & Hlen & Hrej & Hkeep & later & Htr & Hrows & Hnd & Hmetas).
      cbv zeta in Hf, Hlen, Hrej, Hkeep, Htr, Hrows, Hmetas.
      split; [exact Hf|]. split; [exact Hlen|]. split; [exact Hrej|].
      split; [exact Hkeep|]. eexists (_ :: later). split.
      { rewrite Htr. unfold ShadowBroker_cancel_all_market, emit. cbn [trace].
        rewrite <- app_assoc. reflexivity. }
      cbn [omap list_omap insert_row insert_meta]. now repeat split.
    + apply IH.
    + apply IH.
Qed.

End execution_more_facts.


(** * The loop of the smoke script *)

Module tmp_ws_smoke_facts.
Import tmp_ws_smoke.

#[local] Set Warnings "-clear-no-such-hyp".

Lemma size_add (X : gset string) x : size (X ∪ {[x]}) <= size X + 1.
Proof.
  rewrite size_union_alt.
  assert (Hsub : ({[x]} : gset string) ∖ X ⊆ {[x]}) by set_solver.
  apply subseteq_size in Hsub. rewrite size_singleton in Hsub. lia.
Qed.

Lemma async_for_tally start seconds : forall arrivals t,
  let r := async_for start seconds t arrivals in
  let seen := consumed start seconds arrivals in
  n (fst r) = n t + length seen
  /\ markets_seen (fst r)
     = markets_seen t ∪ list_to_set (map (fun a => event_market (ev a)) seen)
  /\ (forall kind,
        default 0 (kinds (fst r) !! kind) = default 0 (kinds t !! kind) + count_kind kind seen)
  /\ snd r = map printed (take (5 - n t) seen)
  /\ size (markets_seen (fst r)) <= size (markets_seen t) + length seen.
Proof.
  assert (Hone : forall t a,
            let r := count_event t a in
            n (fst r) = n t + 1
            /\ markets_seen (fst r) = markets_seen t ∪ {[event_market (ev a)]}
            /\ (forall kind,
                  default 0 (kinds (fst r) !! kind)
                  = default 0 (kinds t !! kind) + count_kind kind [a])
            /\ snd r = map printed (take (5 - n t) [a])).
  { intros t a. cbv zeta. unfold count_event. cbn [fst snd n markets_seen kinds].
    split; [lia|]. split; [reflexivity|]. split.
    - intros kind. unfold count_kind. cbn [List.filter].
      destruct (String.eqb_spec (event_kind (ev a)) kind) as [->|Hne].
      + rewrite lookup_insert_eq. reflexivity.
      + rewrite lookup_insert_ne by exact Hne. cbn [length]. lia.
    - destruct (Nat.leb_spec (S (n t)) 5) as [Hle|Hgt].
      + destruct (5 - n t) as [|k] eqn:Hk; [lia|].
        cbn [firstn map]. now rewrite firstn_nil.
      + replace (5 - n t) with 0 by lia. reflexivity. }
  induction arrivals as [|a arrivals IH]; intros t; cbv zeta.
  - cbn [async_for consumed fst snd length map take list_to_set].
    split; [lia|]. split; [set_solver|]. split; [intros kind; unfold count_kind; cbn; lia|].
    split; [now destruct (5 - n t)|lia].
  - cbn [async_for consumed]. destruct (Hone t a) as (Hn & Hm & Hk & Hp).
    destruct (timed_out start seconds a).
    + cbn [length map list_to_set]. split; [exact Hn|]. split; [rewrite Hm; set_solver|].
      split; [exact Hk|]. split; [exact Hp|]. rewrite Hm. apply size_add.
    + cbv zeta. cbn [fst snd].
      destruct (IH (fst (count_event t a))) as (In & Im & Ik & Ip & Is).
      cbv zeta in In, Im, Ik, Ip, Is. cbn [length map list_to_set].
      split; [rewrite In, Hn; lia|]. split; [rewrite Im, Hm; set_solver|]. split.
      { intros kind. rewrite Ik, Hk. unfold count_kind. cbn [List.filter].
        destruct (String.eqb _ kind); cbn [length]; lia. }
      split.
      { rewrite Ip, Hp, Hn. destruct (Nat.leb_spec (S (n t)) 5) as [Hle|Hgt].
        - destruct (5 - n t) as [|k] eqn:Hk5; [lia|].
          replace (5 - (n t + 1)) with k by lia.
          cbn [firstn map app]. now rewrite firstn_nil.
        - replace (5 - n t) with 0 by lia. replace (5 - (n t + 1)) with 0 by lia.
          reflexivity. }
      rewrite Hm in Is. pose proof (size_add (markets_seen t) (event_market (ev a))).
      rewrite Hm in *. lia.
Qed.

Lemma consumed_stops start seconds : forall arrivals,
  let seen := consumed start seconds arrivals in
  (exists rest, arrivals = seen ++ rest)
  /\ forallb (fun a => negb (timed_out start seconds a)) (removelast seen) = true
  /\ (seen = arrivals
      \/ exists a, last seen = Some a /\ timed_out start seconds a = true).
Proof.
  induction arrivals as [|a arrivals IH]; cbv zeta.
  - cbn. split; [now exists []|]. split; [reflexivity|now left].
  - cbn [consumed]. destruct (timed_out start seconds a) eqn:Ha.
    + split; [now exists arrivals|]. split; [reflexivity|]. right. now exists a.
    + destruct IH as ([rest Hrest] & Hall & Hlast). split.
      { exists rest. cbn [app]. now rewrite <- Hrest. }
      destruct (consumed start seconds arrivals) as [|b seen] eqn:Hseen.
      { split; [reflexivity|]. destruct Hlast as [<-|(b & Hb & _)]; [now left|discriminate]. }
      split.
      { change (removelast (a :: b :: seen)) with (a :: removelast (b :: seen)).
        cbn [forallb]. now rewrite Ha. }
      destruct Hlast as [<-|(c & Hc & Ht)]; [now left|].
      right. exists c. split; [|exact Ht].
      now rewrite last_cons, Hc.
Qed.

(** X13.  The smoke loop consumes the events the feed delivers up to and
    including the first one after which the time is up, or all of them when
    the feed ends first, and counts exactly those: [n] is their number,
    [kinds] holds for each kind how many of them are of that kind,
    [markets_seen] is the set of their markets (so it has at most [n]
    members), and the loop prints the first five of them, in order, and no
    other. *)
Theorem smoke_loop_tallies_what_it_consumed start seconds arrivals :
  let r := async_for start seconds initial arrivals in
  let seen := consumed start seconds arrivals in
  n (fst r) = length seen
  /\ (forall kind, default 0 (kinds (fst r) !! kind) = count_kind kind seen)
  /\ markets_seen (fst r) = list_to_set (map (fun a => event_market (ev a)) seen)
  /\ size (markets_seen (fst r)) <= n (fst r)
  /\ snd r = map printed (take 5 seen)
  /\ (exists rest, arrivals = seen ++ rest)
  /\ forallb (fun a => negb (timed_out start seconds a)) (removelast seen) = true
  /\ (seen = arrivals
      \/ exists a, last seen = Some a /\ timed_out start seconds a = true).
Proof.
  cbv zeta.
  destruct (async_for_tally start seconds arrivals initial) as (Hn & Hm & Hk & Hp & Hs).
  cbv zeta in Hn, Hm, Hk, Hp, Hs. cbn [initial n markets_seen kinds] in Hn, Hm, Hk, Hp, Hs.
  rewrite size_empty in Hs.
  split; [exact Hn|]. split; [intros kind; rewrite Hk, lookup_empty; reflexivity|].
  split; [rewrite Hm; set_solver|]. split; [rewrite Hn; exact Hs|].
  split; [exact Hp|]. apply consumed_stops.
Qed.

End tmp_ws_smoke_facts.
